(** * Flood-risk dashboard: the scoring function and the synthetic series

    A shallow embedding of [flood_dashboard.py]:
    - [calculate_flood_risk], the weighted, normalised risk score;
    - the category ladder computed from the score;
    - [generate_historical_data], the seeded synthetic hourly series.

    Python numbers are modelled as exact rationals ([Q]): the sliders hand
    the function integers and decimal fractions, and every operation of the
    scoring function is a division by a constant, a product, a sum or a
    comparison.  Rounding of binary floating point is not modelled in the
    theorems; [Binary64] transcribes the function once more on IEEE
    binary64 numbers, to evaluate it on the inputs the theorems name, and
    [Raising] once more with the exceptions Python's division can raise.
    Equality on scores is [Qeq] (written [==]). *)

From Stdlib Require Import QArith Qminmax Qabs Lqa ZArith List Bool Lia.
From Stdlib Require PrimFloat.
From Stdlib Require String.
Import ListNotations.

Local Open Scope Q_scope.

(** ** Python built-ins used by the source *)

(** [a < b] on numbers, as a boolean. *)
Definition Qltb (a b : Q) : bool := negb (Qle_bool b a).

Infix "<?" := Qltb (at level 70, no associativity) : Q_scope.
Infix "<=?" := Qle_bool (at level 70, no associativity) : Q_scope.

(** [min(a, b)]: the first argument unless the second is strictly smaller. *)
Definition min (a b : Q) : Q := if b <? a then b else a.

(** [max(a, b)]: the first argument unless the second is strictly larger. *)
Definition max (a b : Q) : Q := if a <? b then b else a.

(** ** The scoring function *)

Module Scorer.

(** The eight arguments of [calculate_flood_risk], in the order of its
    parameter list. *)
Record ParameterSet : Type := mkParams {
  pressure : Q;
  humidity : Q;
  precipitation : Q;
  flow_velocity : Q;
  wind_speed : Q;
  temperature : Q;
  sediments : Q;
  flow_volume : Q
}.

(** The [weights] dictionary, lines 87-96. *)
Module weights.
Definition precipitation : Q := 0.30.
Definition flow_volume : Q := 0.25.
Definition humidity : Q := 0.15.
Definition flow_velocity : Q := 0.12.
Definition sediments : Q := 0.08.
Definition pressure : Q := 0.05.
Definition wind_speed : Q := 0.03.
Definition temperature : Q := 0.02.
End weights.

(** [calculate_flood_risk], lines 60-124, statement by statement. *)
Definition calculate_flood_risk
    (pressure humidity precipitation flow_velocity
     wind_speed temperature sediments flow_volume : Q) : Q :=
  let norm_precipitation := min (precipitation / 200) 1 in
  let norm_humidity := humidity / 100 in
  let norm_flow_volume := min (flow_volume / 2000) 1 in
  let norm_flow_velocity := min (flow_velocity / 10) 1 in
  let norm_sediments := min (sediments / 500) 1 in
  let norm_pressure := 1 - max 0 (min ((pressure - 980) / 40) 1) in
  let norm_wind_speed := min (wind_speed / 80) 1 in
  let temp_risk :=
    if (26 <=? temperature) && (temperature <=? 32) then 0.8
    else if 32 <? temperature then 0.5
    else max 0 ((temperature - 15) / 15) in
  let risk :=
    norm_precipitation * weights.precipitation +
    norm_flow_volume * weights.flow_volume +
    norm_humidity * weights.humidity +
    norm_flow_velocity * weights.flow_velocity +
    norm_sediments * weights.sediments +
    norm_pressure * weights.pressure +
    norm_wind_speed * weights.wind_speed +
    temp_risk * weights.temperature in
  let risk :=
    if (100 <? precipitation) && (90 <? humidity) then risk * 1.25 else risk in
  let risk :=
    if (1200 <? flow_volume) && (5 <? flow_velocity) then risk * 1.3 else risk in
  let risk :=
    if (300 <? sediments) && (800 <? flow_volume) then risk * 1.15 else risk in
  let risk :=
    if (pressure <? 990) && (80 <? precipitation) then risk * 1.2 else risk in
  min (max (risk * 100) 0) 100.

(** *** The parts of [calculate_flood_risk], named

    The definitions below give names to the local variables and to the
    stages of the function; [calculate_flood_risk_stages] shows that the
    function is their composition. *)

(** Normalisation, lines 68-76. *)
Definition norm_precipitation (precipitation : Q) : Q := min (precipitation / 200) 1.
Definition norm_humidity (humidity : Q) : Q := humidity / 100.
Definition norm_flow_volume (flow_volume : Q) : Q := min (flow_volume / 2000) 1.
Definition norm_flow_velocity (flow_velocity : Q) : Q := min (flow_velocity / 10) 1.
Definition norm_sediments (sediments : Q) : Q := min (sediments / 500) 1.
Definition norm_pressure (pressure : Q) : Q :=
  1 - max 0 (min ((pressure - 980) / 40) 1).
Definition norm_wind_speed (wind_speed : Q) : Q := min (wind_speed / 80) 1.

(** Temperature band, lines 79-84. *)
Definition temp_risk (temperature : Q) : Q :=
  if (26 <=? temperature) && (temperature <=? 32) then 0.8
  else if 32 <? temperature then 0.5
  else max 0 ((temperature - 15) / 15).

(** The base risk, lines 99-108: the value of [risk] before any synergy
    factor is applied. *)
Definition base_risk (p : ParameterSet) : Q :=
  norm_precipitation (precipitation p) * weights.precipitation +
  norm_flow_volume (flow_volume p) * weights.flow_volume +
  norm_humidity (humidity p) * weights.humidity +
  norm_flow_velocity (flow_velocity p) * weights.flow_velocity +
  norm_sediments (sediments p) * weights.sediments +
  norm_pressure (pressure p) * weights.pressure +
  norm_wind_speed (wind_speed p) * weights.wind_speed +
  temp_risk (temperature p) * weights.temperature.

(** The four guards of lines 111, 114, 117 and 120, on the raw arguments. *)
Definition rain_humidity (p : ParameterSet) : bool :=
  (100 <? precipitation p) && (90 <? humidity p).
Definition volume_velocity (p : ParameterSet) : bool :=
  (1200 <? flow_volume p) && (5 <? flow_velocity p).
Definition sediments_volume (p : ParameterSet) : bool :=
  (300 <? sediments p) && (800 <? flow_volume p).
Definition pressure_rain (p : ParameterSet) : bool :=
  (pressure p <? 990) && (80 <? precipitation p).

(** The four conditional updates [risk *= k], lines 111-121, run in the
    order of the source on the running value [risk]. *)
Definition synergy (p : ParameterSet) (risk : Q) : Q :=
  let risk := if rain_humidity p then risk * 1.25 else risk in
  let risk := if volume_velocity p then risk * 1.3 else risk in
  let risk := if sediments_volume p then risk * 1.15 else risk in
  let risk := if pressure_rain p then risk * 1.2 else risk in
  risk.

(** The score of a parameter set. *)
Definition score (p : ParameterSet) : Q :=
  calculate_flood_risk (pressure p) (humidity p) (precipitation p)
    (flow_velocity p) (wind_speed p) (temperature p) (sediments p)
    (flow_volume p).

(** The category ladder, lines 219-238. *)
Inductive Category : Type := BAJO | MODERADO | ALTO | CRITICO.

Definition category (flood_risk : Q) : Category :=
  if flood_risk <? 30 then BAJO
  else if flood_risk <? 60 then MODERADO
  else if flood_risk <? 80 then ALTO
  else CRITICO.

(** The two preset buttons, lines 192-210. *)
Definition preset_bajo : ParameterSet :=
  {| pressure := 1015; humidity := 60; precipitation := 10;
     flow_velocity := 1.5; wind_speed := 8; temperature := 20;
     sediments := 30; flow_volume := 200 |}.

Definition preset_critico : ParameterSet :=
  {| pressure := 985; humidity := 95; precipitation := 180;
     flow_velocity := 7.5; wind_speed := 55; temperature := 29;
     sediments := 400; flow_volume := 1800 |}.

(** The slider defaults, lines 168-186. *)
Definition slider_defaults : ParameterSet :=
  {| pressure := 1000; humidity := 83; precipitation := 50;
     flow_velocity := 2.0; wind_speed := 18; temperature := 25;
     sediments := 50; flow_volume := 504 |}.

(** The ranges of the eight sliders, lines 168-186. *)
Definition in_slider_range (p : ParameterSet) : Prop :=
  950 <= pressure p <= 1050 /\
  0 <= humidity p <= 100 /\
  0 <= precipitation p <= 200 /\
  0 <= wind_speed p <= 80 /\
  5 <= temperature p <= 40 /\
  0 <= flow_velocity p <= 10 /\
  50 <= flow_volume p <= 2000 /\
  0 <= sediments p <= 500.

(** The declared domains of the eight inputs (the data model of the
    specification): humidity a percentage, the five physical quantities
    non-negative, pressure and temperature any number. *)
Definition valid (p : ParameterSet) : Prop :=
  0 <= humidity p <= 100 /\
  0 <= precipitation p /\
  0 <= flow_velocity p /\
  0 <= wind_speed p /\
  0 <= sediments p /\
  0 <= flow_volume p.

(** One argument replaced, the other seven held fixed. *)
Definition with_precipitation (p : ParameterSet) (x : Q) : ParameterSet :=
  {| pressure := pressure p; humidity := humidity p; precipitation := x;
     flow_velocity := flow_velocity p; wind_speed := wind_speed p;
     temperature := temperature p; sediments := sediments p;
     flow_volume := flow_volume p |}.

Definition with_temperature (p : ParameterSet) (x : Q) : ParameterSet :=
  {| pressure := pressure p; humidity := humidity p;
     precipitation := precipitation p;
     flow_velocity := flow_velocity p; wind_speed := wind_speed p;
     temperature := x; sediments := sediments p;
     flow_volume := flow_volume p |}.

Definition with_humidity (p : ParameterSet) (x : Q) : ParameterSet :=
  {| pressure := pressure p; humidity := x;
     precipitation := precipitation p;
     flow_velocity := flow_velocity p; wind_speed := wind_speed p;
     temperature := temperature p; sediments := sediments p;
     flow_volume := flow_volume p |}.

(** The factor each synergy guard contributes: its constant when the guard
    holds, 1 otherwise. *)
Definition factor (guard : bool) (k : Q) : Q := if guard then k else 1.

Definition multiplier (p : ParameterSet) : Q :=
  factor (rain_humidity p) 1.25 * factor (volume_velocity p) 1.3 *
  factor (sediments_volume p) 1.15 * factor (pressure_rain p) 1.2.

Definition with_pressure (p : ParameterSet) (x : Q) : ParameterSet :=
  {| pressure := x; humidity := humidity p;
     precipitation := precipitation p;
     flow_velocity := flow_velocity p; wind_speed := wind_speed p;
     temperature := temperature p; sediments := sediments p;
     flow_volume := flow_volume p |}.

Definition with_flow_velocity (p : ParameterSet) (x : Q) : ParameterSet :=
  {| pressure := pressure p; humidity := humidity p;
     precipitation := precipitation p;
     flow_velocity := x; wind_speed := wind_speed p;
     temperature := temperature p; sediments := sediments p;
     flow_volume := flow_volume p |}.

Definition with_wind_speed (p : ParameterSet) (x : Q) : ParameterSet :=
  {| pressure := pressure p; humidity := humidity p;
     precipitation := precipitation p;
     flow_velocity := flow_velocity p; wind_speed := x;
     temperature := temperature p; sediments := sediments p;
     flow_volume := flow_volume p |}.

Definition with_sediments (p : ParameterSet) (x : Q) : ParameterSet :=
  {| pressure := pressure p; humidity := humidity p;
     precipitation := precipitation p;
     flow_velocity := flow_velocity p; wind_speed := wind_speed p;
     temperature := temperature p; sediments := x;
     flow_volume := flow_volume p |}.

Definition with_flow_volume (p : ParameterSet) (x : Q) : ParameterSet :=
  {| pressure := pressure p; humidity := humidity p;
     precipitation := precipitation p;
     flow_velocity := flow_velocity p; wind_speed := wind_speed p;
     temperature := temperature p; sediments := sediments p;
     flow_volume := x |}.

(** The inputs brought back to the ends of the ranges the normalisation
    distinguishes: the five capped inputs cut at their caps, pressure cut
    to [980, 1020], temperature raised to 15.  Humidity has no cap and is
    left alone. *)
Definition saturated (p : ParameterSet) : ParameterSet :=
  {| pressure := min (max (pressure p) 980) 1020;
     humidity := humidity p;
     precipitation := min (precipitation p) 200;
     flow_velocity := min (flow_velocity p) 10;
     wind_speed := min (wind_speed p) 80;
     temperature := max (temperature p) 15;
     sediments := min (sediments p) 500;
     flow_volume := min (flow_volume p) 2000 |}.

End Scorer.

(** ** The scoring rule as the specification words it

    Written from the prose of the specification (section 4.1, steps 1 and
    2), with the library's [Qmin] and [Qmax], to be compared with
    [Scorer.base_risk], which is written from the source. *)

Module Prescribed.

Import Scorer.

Definition clamp (x lo hi : Q) : Q := Qmin (Qmax x lo) hi.

(** "value/200, capped at 1" and its siblings. *)
Definition capped (value range : Q) : Q := Qmin (value / range) 1.

(** "in [26,32] -> 0.8; above 32 -> 0.5; below 26 -> max(0, (temp-15)/15)". *)
Definition temperature_band (t : Q) : Q :=
  if Qlt_le_dec t 26 then Qmax 0 ((t - 15) / 15)
  else if Qlt_le_dec 32 t then 0.5
  else 0.8.

(** Step 2: the weighted sum of the normalised variables of step 1. *)
Definition weighted_sum (p : ParameterSet) : Q :=
  0.30 * capped (precipitation p) 200 +
  0.25 * capped (flow_volume p) 2000 +
  0.15 * (humidity p / 100) +
  0.12 * capped (flow_velocity p) 10 +
  0.08 * capped (sediments p) 500 +
  0.05 * (1 - clamp ((pressure p - 980) / 40) 0 1) +
  0.03 * capped (wind_speed p) 80 +
  0.02 * temperature_band (temperature p).

(** The eight normalised variables in the order the summary sentence of
    the claim lists them (precipitation, humidity, flow volume, flow
    velocity, sediments, pressure, wind speed, temperature), each with the
    weight at the same position of 0.30, 0.25, 0.15, 0.12, 0.08, 0.05,
    0.03, 0.02: humidity gets 0.25 and flow volume 0.15. *)
Definition weighted_sum_as_listed (p : ParameterSet) : Q :=
  0.30 * capped (precipitation p) 200 +
  0.25 * (humidity p / 100) +
  0.15 * capped (flow_volume p) 2000 +
  0.12 * capped (flow_velocity p) 10 +
  0.08 * capped (sediments p) 500 +
  0.05 * (1 - clamp ((pressure p - 980) / 40) 0 1) +
  0.03 * capped (wind_speed p) 80 +
  0.02 * temperature_band (temperature p).

End Prescribed.

Import Scorer.

(** ** The scoring function on binary64 numbers

    The same statements as [Scorer.calculate_flood_risk], on the floats
    Python computes with; a decimal literal denotes the nearest binary64
    number, as in Python. *)

Module Binary64.

Import PrimFloat.

#[local] Set Warnings "-inexact-float".

Local Open Scope float_scope.

Definition min (a b : float) : float := if ltb b a then b else a.

Definition max (a b : float) : float := if ltb a b then b else a.

Definition calculate_flood_risk
    (pressure humidity precipitation flow_velocity
     wind_speed temperature sediments flow_volume : float) : float :=
  let norm_precipitation := min (precipitation / 200) 1 in
  let norm_humidity := humidity / 100 in
  let norm_flow_volume := min (flow_volume / 2000) 1 in
  let norm_flow_velocity := min (flow_velocity / 10) 1 in
  let norm_sediments := min (sediments / 500) 1 in
  let norm_pressure := 1 - max 0 (min ((pressure - 980) / 40) 1) in
  let norm_wind_speed := min (wind_speed / 80) 1 in
  let temp_risk :=
    if leb 26 temperature && leb temperature 32 then 0.8
    else if ltb 32 temperature then 0.5
    else max 0 ((temperature - 15) / 15) in
  let risk :=
    norm_precipitation * 0.30 +
    norm_flow_volume * 0.25 +
    norm_humidity * 0.15 +
    norm_flow_velocity * 0.12 +
    norm_sediments * 0.08 +
    norm_pressure * 0.05 +
    norm_wind_speed * 0.03 +
    temp_risk * 0.02 in
  let risk :=
    if ltb 100 precipitation && ltb 90 humidity then risk * 1.25 else risk in
  let risk :=
    if ltb 1200 flow_volume && ltb 5 flow_velocity then risk * 1.3 else risk in
  let risk :=
    if ltb 300 sediments && ltb 800 flow_volume then risk * 1.15 else risk in
  let risk :=
    if ltb pressure 990 && ltb 80 precipitation then risk * 1.2 else risk in
  min (max (risk * 100) 0) 100.

Definition category (flood_risk : float) : Scorer.Category :=
  if ltb flood_risk 30 then Scorer.BAJO
  else if ltb flood_risk 60 then Scorer.MODERADO
  else if ltb flood_risk 80 then Scorer.ALTO
  else Scorer.CRITICO.

End Binary64.

(** ** The scoring function with Python's exceptions

    The arguments are Python numbers: an [int] of any size or a [float].
    A finite float is read as the rational it denotes; infinities and nan
    are not represented.  Of the operations of [calculate_flood_risk]
    only the true division [/] can raise: [ZeroDivisionError] on a zero
    divisor, and, when the dividend is an [int], [OverflowError] when the
    quotient rounds beyond the largest float, that is, when its magnitude
    reaches 2^1024 - 2^970.  Subtraction of a literal from an [int] is
    exact; comparisons and the float products and sums do not raise.
    [None] stands for a raised exception. *)

Module Raising.

Import Scorer.

Inductive Number : Type :=
  | PyInt (z : Z)
  | PyFloat (q : Q).

Definition value (x : Number) : Q :=
  match x with
  | PyInt z => inject_Z z
  | PyFloat q => q
  end.

(** The least magnitude that rounds beyond the largest float. *)
Definition float_overflow : Q := inject_Z (2 ^ 1024 - 2 ^ 970).

(** [x / d], [d] an integer literal. *)
Definition truediv (x : Number) (d : Z) : option Q :=
  if (d =? 0)%Z then None
  else match x with
       | PyInt z =>
           let q := inject_Z z / inject_Z d in
           if float_overflow <=? Qabs q then None else Some q
       | PyFloat q => Some (q / inject_Z d)
       end.

(** [x - c], [c] an integer literal. *)
Definition sub (x : Number) (c : Z) : Number :=
  match x with
  | PyInt z => PyInt (z - c)
  | PyFloat q => PyFloat (q - inject_Z c)
  end.

Definition bind {A B : Type} (c : option A) (k : A -> option B) : option B :=
  match c with
  | Some a => k a
  | None => None
  end.

Notation "x <- c ;; k" := (bind c (fun x => k))
  (at level 61, c at next level, right associativity).

(** [calculate_flood_risk], lines 60-124, statement by statement. *)
Definition calculate_flood_risk
    (pressure humidity precipitation flow_velocity
     wind_speed temperature sediments flow_volume : Number) : option Q :=
  q <- truediv precipitation 200 ;;
  let norm_precipitation := min q 1 in
  norm_humidity <- truediv humidity 100 ;;
  q <- truediv flow_volume 2000 ;;
  let norm_flow_volume := min q 1 in
  q <- truediv flow_velocity 10 ;;
  let norm_flow_velocity := min q 1 in
  q <- truediv sediments 500 ;;
  let norm_sediments := min q 1 in
  q <- truediv (sub pressure 980) 40 ;;
  let norm_pressure := 1 - max 0 (min q 1) in
  q <- truediv wind_speed 80 ;;
  let norm_wind_speed := min q 1 in
  temp_risk <-
    (if (26 <=? value temperature) && (value temperature <=? 32) then Some 0.8
     else if 32 <? value temperature then Some 0.5
     else q <- truediv (sub temperature 15) 15 ;; Some (max 0 q)) ;;
  let risk :=
    norm_precipitation * weights.precipitation +
    norm_flow_volume * weights.flow_volume +
    norm_humidity * weights.humidity +
    norm_flow_velocity * weights.flow_velocity +
    norm_sediments * weights.sediments +
    norm_pressure * weights.pressure +
    norm_wind_speed * weights.wind_speed +
    temp_risk * weights.temperature in
  let risk :=
    if (100 <? value precipitation) && (90 <? value humidity)
    then risk * 1.25 else risk in
  let risk :=
    if (1200 <? value flow_volume) && (5 <? value flow_velocity)
    then risk * 1.3 else risk in
  let risk :=
    if (300 <? value sediments) && (800 <? value flow_volume)
    then risk * 1.15 else risk in
  let risk :=
    if (value pressure <? 990) && (80 <? value precipitation)
    then risk * 1.2 else risk in
  Some (min (max (risk * 100) 0) 100).

(** A finite float, or an [int] of magnitude at most 2^1000. *)
Definition representable (x : Number) : Prop :=
  match x with
  | PyInt z => (Z.abs z <= 2 ^ 1000)%Z
  | PyFloat _ => True
  end.

End Raising.

(** ** What the page shows for a score

    The colour chosen with the category (lines 219-238; the emoji and the
    message chosen with it are text only), the alert box (lines 284-291)
    and the background bands of the gauge (lines 260-265). *)

Module Dashboard.

Import Scorer.
Import String.

(** [color], assigned next to [category], lines 219-238. *)
Definition color (flood_risk : Q) : string :=
  if flood_risk <? 30 then "green"%string
  else if flood_risk <? 60 then "orange"%string
  else if flood_risk <? 80 then "red"%string
  else "darkred"%string.

(** The three kinds of alert box. *)
Inductive Alert : Type := success | warning | error.

(** The alert ladder, lines 284-291. *)
Definition alert (flood_risk : Q) : Alert :=
  if flood_risk <? 30 then success
  else if flood_risk <? 60 then warning
  else if flood_risk <? 80 then error
  else error.

(** The [steps] of the gauge, lines 260-265: range and colour. *)
Definition gauge_steps : list (Q * Q * string) :=
  [ (0, 30, "#d1fae5"%string); (30, 60, "#fed7aa"%string); (60, 80, "#fecaca"%string);
    (80, 100, "#fca5a5"%string) ].

(** The position of a category on the ladder. *)
Definition rank (c : Category) : nat :=
  match c with
  | BAJO => 0
  | MODERADO => 1
  | ALTO => 2
  | CRITICO => 3
  end.

End Dashboard.

(** ** The synthetic series *)

Module Series.

(** Instants are microseconds since the epoch, the resolution of
    [datetime.now()]. *)
Definition Timestamp : Type := Z.
Definition hour : Z := 3600000000%Z.

(** What the generator takes from NumPy.  The legacy global generator is a
    state; [np.random.seed] replaces it; a sized call to [np.random.gamma]
    or [np.random.normal] draws its variates one after the other from that
    state.  [np.sin] and [np.pi] are kept abstract. *)
Class NumPy : Type := {
  RandomState : Type;
  seed : Z -> RandomState;
  gamma_variate : Q -> Q -> RandomState -> Q * RandomState;
  normal_variate : Q -> Q -> RandomState -> Q * RandomState;
  sin : Q -> Q;
  pi : Q
}.

(** [n] variates drawn in sequence. *)
Fixpoint draws {S A : Type} (draw : S -> A * S) (n : nat) (s : S)
  : list A * S :=
  match n with
  | O => ([], s)
  | Datatypes.S n' =>
      let (x, s1) := draw s in
      let (xs, s2) := draws draw n' s1 in
      (x :: xs, s2)
  end.

Section Generator.

Context {np : NumPy}.

(** What a call can read and change outside its arguments: the global
    generator state of NumPy and the wall clock. *)
Record World : Type := mkWorld {
  rng : RandomState;
  now : Timestamp
}.

(** Computations that read and update the world and may raise. *)
Definition M (A : Type) : Type := World -> option (A * World).

Definition ret {A : Type} (a : A) : M A := fun w => Some (a, w).

Definition bind {A B : Type} (c : M A) (k : A -> M B) : M B :=
  fun w => match c w with
           | Some (a, w') => k a w'
           | None => None
           end.

Definition raise {A : Type} : M A := fun _ => None.

Notation "x <- c ;; k" := (bind c (fun x => k))
  (at level 61, c at next level, right associativity).

(** [np.random.seed(n)]. *)
Definition np_random_seed (n : Z) : M unit :=
  fun w => Some (tt, {| rng := seed n; now := now w |}).

(** [datetime.now()]. *)
Definition datetime_now : M Timestamp := fun w => Some (now w, w).

(** [np.random.gamma(shape, scale, size)]; a negative size raises. *)
Definition np_random_gamma (shape scale : Q) (size : Z) : M (list Q) :=
  fun w =>
    if (size <? 0)%Z then None
    else let (xs, s) := draws (gamma_variate shape scale) (Z.to_nat size) (rng w) in
         Some (xs, {| rng := s; now := now w |}).

(** [np.random.normal(loc, scale, size)]; a negative size raises. *)
Definition np_random_normal (loc scale : Q) (size : Z) : M (list Q) :=
  fun w =>
    if (size <? 0)%Z then None
    else let (xs, s) := draws (normal_variate loc scale) (Z.to_nat size) (rng w) in
         Some (xs, {| rng := s; now := now w |}).

(** [pd.date_range(end=e, periods=n, freq='H')]: [n] hourly instants, the
    last one [e]; a negative number of periods raises. *)
Definition pd_date_range (e : Timestamp) (periods : Z) : M (list Timestamp) :=
  if (periods <? 0)%Z then raise
  else ret (map (fun i => (e - hour * (periods - 1 - Z.of_nat i))%Z)
                (seq 0 (Z.to_nat periods))).

(** [np.arange(n)]. *)
Definition np_arange (n : Z) : list Q :=
  map (fun i => inject_Z (Z.of_nat i)) (seq 0 (Z.to_nat n)).

(** Elementwise sum of two arrays; arrays of different lengths do not
    broadcast and the sum raises. *)
Fixpoint zip_add (a b : list Q) : list Q :=
  match a, b with
  | x :: a', y :: b' => (x + y) :: zip_add a' b'
  | _, _ => []
  end.

Definition array_add (a b : list Q) : M (list Q) :=
  if Nat.eqb (length a) (length b) then ret (zip_add a b) else raise.

(** [np.clip(a, lo, hi)] and [Series.clip(lo, hi)], elementwise. *)
Definition clip (a : list Q) (lo hi : Q) : list Q :=
  map (fun x => min (max x lo) hi) a.

(** The dictionary [data], lines 134-142, and the frame built from it. *)
Record Data : Type := mkData {
  fecha : list Timestamp;
  precipitacion : list Q;
  temperatura : list Q;
  humedad : list Q;
  presion : list Q;
  viento : list Q;
  caudal : list Q
}.

(** The frame the function returns: the seven columns and [riesgo]. *)
Record DataFrame : Type := mkDataFrame {
  columns : Data;
  riesgo : list Q
}.

(** [pd.DataFrame(data)] raises unless all columns have one length. *)
Definition pd_DataFrame (d : Data) : M Data :=
  let n := length (fecha d) in
  if Nat.eqb (length (precipitacion d)) n
     && Nat.eqb (length (temperatura d)) n
     && Nat.eqb (length (humedad d)) n
     && Nat.eqb (length (presion d)) n
     && Nat.eqb (length (viento d)) n
     && Nat.eqb (length (caudal d)) n
  then ret d else raise.

(** One row of the frame, as [df.apply(..., axis=1)] hands it to the
    lambda. *)
Record Row : Type := mkRow {
  row_fecha : Timestamp;
  row_precipitacion : Q;
  row_temperatura : Q;
  row_humedad : Q;
  row_presion : Q;
  row_viento : Q;
  row_caudal : Q
}.

Fixpoint rows_of (f : list Timestamp) (pr te hu ps vi ca : list Q) : list Row :=
  match f, pr, te, hu, ps, vi, ca with
  | f0 :: f', pr0 :: pr', te0 :: te', hu0 :: hu', ps0 :: ps', vi0 :: vi',
    ca0 :: ca' =>
      mkRow f0 pr0 te0 hu0 ps0 vi0 ca0 :: rows_of f' pr' te' hu' ps' vi' ca'
  | _, _, _, _, _, _, _ => []
  end.

Definition rows (d : Data) : list Row :=
  rows_of (fecha d) (precipitacion d) (temperatura d) (humedad d)
          (presion d) (viento d) (caudal d).

(** [df.apply(f, axis=1)]. *)
Definition apply_rows (f : Row -> Q) (d : Data) : list Q := map f (rows d).

(** The lambda of lines 148-151. *)
Definition row_risk (row : Row) : Q :=
  calculate_flood_risk (row_presion row) (row_humedad row)
    (row_precipitacion row) 2.0 (row_viento row) (row_temperatura row) 50
    (row_caudal row).

(** [generate_historical_data], lines 129-153. *)
Definition generate_historical_data (days : Z) : M DataFrame :=
  _ <- np_random_seed 42 ;;
  e <- datetime_now ;;
  dates <- pd_date_range e (days * 24) ;;
  col_precipitacion <- np_random_gamma 2 15 (days * 24) ;;
  noise <- np_random_normal 0 2 (days * 24) ;;
  col_temperatura <-
    array_add
      (map (fun x => 15 + 10 * sin (x * 2 * pi / 24)) (np_arange (days * 24)))
      noise ;;
  noise <- np_random_normal 0 15 (days * 24) ;;
  let col_humedad := clip (map (fun x => 60 + x) noise) 30 100 in
  noise <- np_random_normal 0 10 (days * 24) ;;
  let col_presion := map (fun x => 1013 + x) noise in
  noise <- np_random_normal 15 10 (days * 24) ;;
  let col_viento := map Qabs noise in
  noise <- np_random_normal 0 100 (days * 24) ;;
  col_caudal <-
    array_add
      (map (fun x => 300 + 200 * sin (x * 2 * pi / (24 * 7)))
           (np_arange (days * 24)))
      noise ;;
  df <- pd_DataFrame
          (mkData dates col_precipitacion col_temperatura col_humedad
                  col_presion col_viento col_caudal) ;;
  let df := mkData (fecha df) (precipitacion df) (temperatura df)
                   (humedad df) (presion df) (viento df)
                   (clip (caudal df) 50 2000) in
  ret (mkDataFrame df (apply_rows row_risk df)).

(** The columns other than [fecha]. *)
Definition non_timestamp (df : DataFrame)
  : list Q * list Q * list Q * list Q * list Q * list Q * list Q :=
  (precipitacion (columns df), temperatura (columns df),
   humedad (columns df), presion (columns df), viento (columns df),
   caudal (columns df), riesgo df).

(** The number of rows of a frame: the length of its index. *)
Definition nrows (df : DataFrame) : nat := length (fecha (columns df)).

(** Every column of the frame has [n] entries. *)
Definition all_columns_have (n : nat) (df : DataFrame) : Prop :=
  length (fecha (columns df)) = n /\
  length (precipitacion (columns df)) = n /\
  length (temperatura (columns df)) = n /\
  length (humedad (columns df)) = n /\
  length (presion (columns df)) = n /\
  length (viento (columns df)) = n /\
  length (caudal (columns df)) = n /\
  length (riesgo df) = n.

(** Consecutive entries are one hour apart. *)
Definition hourly (ts : list Timestamp) : Prop :=
  forall i : nat, (i + 1 < length ts)%nat ->
    nth (i + 1) ts 0%Z = (nth i ts 0%Z + hour)%Z.

(** The arguments the lambda of lines 148-151 hands to
    [calculate_flood_risk] for a row. *)
Definition row_params (row : Row) : ParameterSet :=
  {| pressure := row_presion row; humidity := row_humedad row;
     precipitation := row_precipitacion row; flow_velocity := 2.0;
     wind_speed := row_viento row; temperature := row_temperatura row;
     sediments := 50; flow_volume := row_caudal row |}.

(** [Series.min()], [Series.max()] and [Series.mean()] of a column, as the
    summary table calls them (lines 373-396); an empty column has none. *)
Definition series_min (l : list Q) : option Q :=
  match l with
  | [] => None
  | x :: l' => Some (fold_left min l' x)
  end.

Definition series_max (l : list Q) : option Q :=
  match l with
  | [] => None
  | x :: l' => Some (fold_left max l' x)
  end.

Definition series_mean (l : list Q) : option Q :=
  match l with
  | [] => None
  | _ :: _ => Some (fold_left Qplus l 0 / inject_Z (Z.of_nat (length l)))
  end.

End Generator.

(** A small instance of the NumPy interface, to run the generator on: a
    linear congruential generator for the state, variates read off the
    state, and a zero [sin]. *)
Definition lcg (s : Z) : Z := ((1103515245 * s + 12345) mod 2147483648)%Z.

Definition ToyNumPy : NumPy := {|
  RandomState := Z;
  seed := fun n => n;
  gamma_variate := fun shape scale s => (shape * scale * (lcg s # 1073741824), lcg s);
  normal_variate := fun loc scale s =>
    (loc + scale * ((lcg s - 1073741824) # 1073741824), lcg s);
  sin := fun _ => 0;
  pi := 355 # 113
|}.

End Series.

(** * Properties *)

(** ** Comparisons, [min] and [max] *)

Lemma Qltb_lt (a b : Q) : (a <? b) = true <-> a < b.
Proof.
  unfold Qltb. rewrite negb_true_iff.
  split; intro H.
  - apply Qnot_le_lt. intro Hle. apply Qle_bool_iff in Hle. congruence.
  - destruct (b <=? a) eqn:E; [|reflexivity].
    apply Qle_bool_iff in E. exfalso. apply (Qlt_not_le _ _ H E).
Qed.

Lemma Qltb_ge (a b : Q) : (a <? b) = false <-> b <= a.
Proof.
  unfold Qltb. rewrite negb_false_iff. apply Qle_bool_iff.
Qed.

Lemma Qleb_gt (a b : Q) : (a <=? b) = false <-> b < a.
Proof.
  split; intro H.
  - apply Qnot_le_lt. intro Hle. apply Qle_bool_iff in Hle. congruence.
  - destruct (a <=? b) eqn:E; [|reflexivity].
    apply Qle_bool_iff in E. exfalso. apply (Qlt_not_le _ _ H E).
Qed.

(** Turn the boolean tests recorded in the context into inequalities. *)
Ltac tests_to_props :=
  repeat match goal with
  | H : (_ <? _) = true |- _ => apply Qltb_lt in H
  | H : (_ <? _) = false |- _ => apply Qltb_ge in H
  | H : (_ <=? _) = true |- _ => apply Qle_bool_iff in H
  | H : (_ <=? _) = false |- _ => apply Qleb_gt in H
  end.

(** Division by a numeral, rewritten as a product with its inverse. *)
Ltac const_div :=
  unfold Qdiv;
  repeat match goal with
  | |- context [/ ?c] =>
      let v := eval vm_compute in (/ c) in
      progress change (/ c) with v
  end.

(** A term with no conditional inside. *)
Ltac branch_free t :=
  lazymatch t with
  | context [if _ then _ else _] => fail
  | _ => idtac
  end.

(** Split on every comparison the goal branches on, innermost first, so
    that the recorded tests mention no conditional. *)
Ltac split_tests :=
  repeat match goal with
  | |- context [?a <? ?b] =>
      branch_free a; branch_free b; destruct (a <? b) eqn:?
  | |- context [?a <=? ?b] =>
      branch_free a; branch_free b; destruct (a <=? b) eqn:?
  end;
  cbn [andb orb negb];
  tests_to_props.

Lemma min_cases (a b : Q) :
  (b < a /\ min a b = b) \/ (a <= b /\ min a b = a).
Proof. unfold min. split_tests; auto. Qed.

Lemma max_cases (a b : Q) :
  (a < b /\ max a b = b) \/ (b <= a /\ max a b = a).
Proof. unfold max. split_tests; auto. Qed.

Lemma min_Qmin (a b : Q) : min a b == Qmin a b.
Proof.
  destruct (min_cases a b) as [[H ->]|[H ->]].
  - symmetry. apply Q.min_r. lra.
  - symmetry. apply Q.min_l. exact H.
Qed.

Lemma max_Qmax (a b : Q) : max a b == Qmax a b.
Proof.
  destruct (max_cases a b) as [[H ->]|[H ->]].
  - symmetry. apply Q.max_r. lra.
  - symmetry. apply Q.max_l. exact H.
Qed.

#[local] Instance min_proper : Proper (Qeq ==> Qeq ==> Qeq) min.
Proof. intros a a' Ha b b' Hb. rewrite !min_Qmin, Ha, Hb. reflexivity. Qed.

#[local] Instance max_proper : Proper (Qeq ==> Qeq ==> Qeq) max.
Proof. intros a a' Ha b b' Hb. rewrite !max_Qmax, Ha, Hb. reflexivity. Qed.

Lemma min_le_mono (a a' c : Q) : a <= a' -> min a c <= min a' c.
Proof. intro H. unfold min. split_tests; lra. Qed.

Lemma max_le_mono (a a' c : Q) : a <= a' -> max a c <= max a' c.
Proof. intro H. unfold max. split_tests; lra. Qed.

(** The last statement of the function clamps whatever it is given. *)
Lemma final_clamp_bounds (x : Q) : 0 <= min (max x 0) 100 <= 100.
Proof. unfold min, max. split_tests; lra. Qed.

Lemma final_clamp_mono (x y : Q) :
  x <= y -> min (max x 0) 100 <= min (max y 0) 100.
Proof. intro H. apply min_le_mono, max_le_mono, H. Qed.

(** ** The function is the composition of its named stages *)

Lemma calculate_flood_risk_stages (p : ParameterSet) :
  score p = min (max (synergy p (base_risk p) * 100) 0) 100.
Proof. destruct p. reflexivity. Qed.

Lemma synergy_multiplier (p : ParameterSet) (risk : Q) :
  synergy p risk == risk * multiplier p.
Proof.
  unfold synergy, multiplier, factor.
  destruct (rain_humidity p), (volume_velocity p), (sediments_volume p),
    (pressure_rain p); ring.
Qed.

Lemma score_multiplier (p : ParameterSet) :
  score p == min (max (base_risk p * multiplier p * 100) 0) 100.
Proof.
  rewrite calculate_flood_risk_stages, synergy_multiplier. reflexivity.
Qed.

Lemma multiplier_ge_1 (p : ParameterSet) : 1 <= multiplier p.
Proof.
  unfold multiplier, factor.
  destruct (rain_humidity p), (volume_velocity p), (sediments_volume p),
    (pressure_rain p); vm_compute; discriminate.
Qed.

(** The score is between 0 and 100 on every input. *)
Lemma calculate_flood_risk_bounds
    (pressure humidity precipitation flow_velocity
     wind_speed temperature sediments flow_volume : Q) :
  0 <= calculate_flood_risk pressure humidity precipitation flow_velocity
         wind_speed temperature sediments flow_volume <= 100.
Proof. unfold calculate_flood_risk. cbv zeta. apply final_clamp_bounds. Qed.

(** The score at the slider defaults: 33.958... *)
Example score_at_slider_defaults : score slider_defaults == 815 # 24.
Proof. reflexivity. Qed.

Lemma slider_range_valid (p : ParameterSet) : in_slider_range p -> valid p.
Proof. unfold in_slider_range, valid. intuition lra. Qed.

(** ** C1 *)

(** C1. For every valid parameter set (each input within its declared
    domain), the score returned by the scoring function is at least 0 and
    at most 100. *)
Theorem C1_score_in_range (p : ParameterSet) :
  valid p -> 0 <= score p <= 100.
Proof. intros _. unfold score. apply calculate_flood_risk_bounds. Qed.

Lemma C1_score_in_range_witness :
  valid slider_defaults /\ 0 <= score slider_defaults <= 100.
Proof.
  assert (Hv : valid slider_defaults).
  { unfold valid; cbn; repeat split; discriminate. }
  split; [exact Hv | exact (C1_score_in_range slider_defaults Hv)].
Defined.

(** ** C2 *)

Lemma temp_risk_band (t : Q) : temp_risk t == Prescribed.temperature_band t.
Proof.
  unfold temp_risk, Prescribed.temperature_band.
  destruct (Qlt_le_dec t 26) as [Hlo|Hlo]; [|destruct (Qlt_le_dec 32 t) as [Hhi|Hhi]];
    split_tests; try lra; try reflexivity.
  apply max_Qmax.
Qed.

Lemma capped_norm (value range : Q) :
  min (value / range) 1 == Prescribed.capped value range.
Proof. apply min_Qmin. Qed.

Lemma norm_pressure_clamp (x : Q) :
  1 - max 0 (min x 1) == 1 - Prescribed.clamp x 0 1.
Proof.
  unfold Prescribed.clamp.
  rewrite max_Qmax, min_Qmin.
  destruct (Qlt_le_dec x 0) as [H0|H0]; [|destruct (Qlt_le_dec x 1) as [H1|H1]].
  - rewrite (Q.min_l x 1) by lra. rewrite (Q.max_l 0 x) by lra.
    rewrite (Q.max_r x 0) by lra. rewrite (Q.min_l 0 1) by lra. reflexivity.
  - rewrite (Q.min_l x 1) by lra. rewrite (Q.max_r 0 x) by lra.
    rewrite (Q.max_l x 0) by lra. rewrite (Q.min_l x 1) by lra. reflexivity.
  - rewrite (Q.min_r x 1) by lra. rewrite (Q.max_r 0 1) by lra.
    rewrite (Q.max_l x 0) by lra. rewrite (Q.min_r x 1) by lra. reflexivity.
Qed.

Lemma weights_total :
  weights.precipitation + weights.flow_volume + weights.humidity +
  weights.flow_velocity + weights.sediments + weights.pressure +
  weights.wind_speed + weights.temperature == 1.
Proof. reflexivity. Qed.

(** The weights do not go with the variables in the order the normalised
    variables are listed (precipitation, humidity, flow volume, ...): that
    pairing gives humidity 0.25 and flow volume 0.15, and at the slider
    defaults the sum 23843/60000, where the base risk of the code is
    163/480. *)
Lemma C2_weights_not_in_listed_order :
  base_risk slider_defaults == 163 # 480 /\
  Prescribed.weighted_sum_as_listed slider_defaults == 23843 # 60000 /\
  ~ base_risk slider_defaults
    == Prescribed.weighted_sum_as_listed slider_defaults.
Proof.
  split; [reflexivity|]. split; [reflexivity|].
  intro H. vm_compute in H. discriminate H.
Qed.

(** C2, amended. The base risk, the value of [risk] before the synergy
    factors, is the weighted sum of the normalised variables exactly as
    section 4.1 prescribes them (caps at 1, inverted clamped pressure, the
    piecewise temperature band), each variable with the weight of its own
    name: precipitation 0.30, flow volume 0.25, humidity 0.15, flow
    velocity 0.12, sediments 0.08, pressure 0.05, wind speed 0.03,
    temperature 0.02; the weights add up to exactly 1. *)
Theorem C2_base_risk_is_weighted_sum (p : ParameterSet) :
  score p = min (max (synergy p (base_risk p) * 100) 0) 100 /\
  base_risk p == Prescribed.weighted_sum p /\
  (weights.precipitation == 0.30 /\ weights.flow_volume == 0.25 /\
   weights.humidity == 0.15 /\ weights.flow_velocity == 0.12 /\
   weights.sediments == 0.08 /\ weights.pressure == 0.05 /\
   weights.wind_speed == 0.03 /\ weights.temperature == 0.02) /\
  weights.precipitation + weights.flow_volume + weights.humidity +
  weights.flow_velocity + weights.sediments + weights.pressure +
  weights.wind_speed + weights.temperature == 1.
Proof.
  split; [apply calculate_flood_risk_stages|].
  split; [|split; [repeat split; reflexivity | exact weights_total]].
  unfold base_risk, Prescribed.weighted_sum.
  unfold norm_precipitation, norm_flow_volume, norm_humidity,
    norm_flow_velocity, norm_sediments, norm_pressure, norm_wind_speed.
  rewrite norm_pressure_clamp, !capped_norm, temp_risk_band.
  unfold weights.precipitation, weights.flow_volume, weights.humidity,
    weights.flow_velocity, weights.sediments, weights.pressure,
    weights.wind_speed, weights.temperature.
  ring.
Qed.

(** ** C3 *)

Lemma guard_iff (a b c d : Q) :
  (a <? b) && (c <? d) = true <-> a < b /\ c < d.
Proof. rewrite andb_true_iff, !Qltb_lt. reflexivity. Qed.

(** C3. Each of the four synergy factors is applied exactly when both of
    its conditions hold on the raw arguments; the factors of the guards
    that hold multiply; with precipitation 150, humidity 50 does not get
    the factor 1.25 and humidity 95 does, whatever the other arguments. *)
Theorem C3_synergy_conjunctive_compounding (p : ParameterSet) (risk : Q) :
  (rain_humidity p = true <-> 100 < precipitation p /\ 90 < humidity p) /\
  (volume_velocity p = true <-> 1200 < flow_volume p /\ 5 < flow_velocity p) /\
  (sediments_volume p = true <-> 300 < sediments p /\ 800 < flow_volume p) /\
  (pressure_rain p = true <-> pressure p < 990 /\ 80 < precipitation p) /\
  synergy p risk ==
    risk * (if rain_humidity p then 1.25 else 1)
         * (if volume_velocity p then 1.3 else 1)
         * (if sediments_volume p then 1.15 else 1)
         * (if pressure_rain p then 1.2 else 1) /\
  score p ==
    min (max (base_risk p
              * (if rain_humidity p then 1.25 else 1)
              * (if volume_velocity p then 1.3 else 1)
              * (if sediments_volume p then 1.15 else 1)
              * (if pressure_rain p then 1.2 else 1) * 100) 0) 100 /\
  rain_humidity (with_humidity (with_precipitation p 150) 50) = false /\
  rain_humidity (with_humidity (with_precipitation p 150) 95) = true.
Proof.
  split; [unfold rain_humidity; apply guard_iff|].
  split; [unfold volume_velocity; apply guard_iff|].
  split; [unfold sediments_volume; apply guard_iff|].
  split; [unfold pressure_rain; apply guard_iff|].
  split; [|split; [|split; reflexivity]].
  - rewrite synergy_multiplier. unfold multiplier, factor. ring.
  - rewrite score_multiplier. unfold multiplier, factor.
    apply min_proper; [|reflexivity]. apply max_proper; [|reflexivity].
    ring.
Qed.

(** ** C4 *)

(** C4. The category is BAJO (low) exactly for scores below 30, MODERADO
    (moderate) exactly from 30 up to but not including 60, ALTO (high)
    exactly from 60 up to but not including 80, CRITICO (critical) exactly
    from 80 on; the boundary scores 30, 60 and 80 fall in the higher
    category. *)
Theorem C4_category_thresholds (s : Q) :
  (category s = BAJO <-> s < 30) /\
  (category s = MODERADO <-> 30 <= s /\ s < 60) /\
  (category s = ALTO <-> 60 <= s /\ s < 80) /\
  (category s = CRITICO <-> 80 <= s) /\
  category 30 = MODERADO /\ category 60 = ALTO /\ category 80 = CRITICO.
Proof.
  assert (Hb : category 30 = MODERADO /\ category 60 = ALTO /\
               category 80 = CRITICO) by (repeat split; reflexivity).
  unfold category at 1 2 3 4.
  destruct (s <? 30) eqn:E30; destruct (s <? 60) eqn:E60;
    destruct (s <? 80) eqn:E80; tests_to_props;
    intuition (try discriminate; try reflexivity; try lra).
Qed.

(** ** C5 *)

Lemma norm_precipitation_mono (x y : Q) :
  x <= y -> norm_precipitation x <= norm_precipitation y.
Proof.
  intro H. unfold norm_precipitation. apply min_le_mono.
  unfold Qdiv. apply Qmult_le_compat_r; [exact H | discriminate].
Qed.

Lemma base_risk_mono_precipitation (p : ParameterSet) (x y : Q) :
  x <= y ->
  base_risk (with_precipitation p x) <= base_risk (with_precipitation p y).
Proof.
  intro H. unfold base_risk. cbn [with_precipitation precipitation
    flow_volume humidity flow_velocity sediments pressure wind_speed
    temperature].
  pose proof (norm_precipitation_mono x y H) as Hn.
  unfold weights.precipitation.
  repeat apply Qplus_le_compat; try apply Qle_refl.
  apply Qmult_le_compat_r; [exact Hn | discriminate].
Qed.

Lemma multiplier_mono_precipitation (p : ParameterSet) (x y : Q) :
  x <= y ->
  multiplier (with_precipitation p x) <= multiplier (with_precipitation p y).
Proof.
  intro H.
  unfold multiplier, rain_humidity, pressure_rain, volume_velocity,
    sediments_volume.
  cbn [with_precipitation precipitation flow_volume humidity flow_velocity
    sediments pressure].
  destruct ((1200 <? flow_volume p) && (5 <? flow_velocity p));
  destruct ((300 <? sediments p) && (800 <? flow_volume p));
  destruct (90 <? humidity p); destruct (pressure p <? 990);
  destruct (100 <? x) eqn:Ex1; destruct (100 <? y) eqn:Ey1;
  destruct (80 <? x) eqn:Ex2; destruct (80 <? y) eqn:Ey2;
  tests_to_props; try (exfalso; lra);
  cbn [andb factor]; vm_compute; discriminate.
Qed.

(** The score never decreases when precipitation grows, on any input: a
    negative base risk is clamped to 0, and a non-negative one is
    multiplied by factors that are at least 1 and only switch on. *)
Lemma score_mono_precipitation (p : ParameterSet) (x y : Q) :
  x <= y ->
  score (with_precipitation p x) <= score (with_precipitation p y).
Proof.
  intro H.
  rewrite !score_multiplier.
  pose proof (base_risk_mono_precipitation p x y H) as Hb.
  pose proof (multiplier_mono_precipitation p x y H) as Hm.
  pose proof (multiplier_ge_1 (with_precipitation p x)) as H1.
  set (b1 := base_risk (with_precipitation p x)) in *.
  set (b2 := base_risk (with_precipitation p y)) in *.
  set (m1 := multiplier (with_precipitation p x)) in *.
  set (m2 := multiplier (with_precipitation p y)) in *.
  clearbody b1 b2 m1 m2.
  destruct (Qlt_le_dec b1 0) as [Hneg|Hpos].
  - assert (Hx : b1 * m1 <= 0 * m1) by (apply Qmult_le_compat_r; lra).
    apply Qle_trans with 0; [|apply final_clamp_bounds].
    unfold min, max. split_tests; lra.
  - apply final_clamp_mono.
    assert (Hl : m1 * b1 <= m2 * b1) by (apply Qmult_le_compat_r; lra).
    assert (Hr : b1 * m2 <= b2 * m2) by (apply Qmult_le_compat_r; lra).
    lra.
Qed.

(** C5. With the other seven arguments held at valid values, the score
    never decreases as precipitation grows within [0, 200], the thresholds
    at 80 and 100 of the synergy guards included. *)
Theorem C5_score_monotone_in_precipitation
    (p : ParameterSet) (p1 p2 : Q) :
  valid (with_precipitation p p1) ->
  p1 <= p2 -> p2 <= 200 ->
  score (with_precipitation p p1) <= score (with_precipitation p p2).
Proof. intros _ H _. apply score_mono_precipitation, H. Qed.

Lemma C5_score_monotone_in_precipitation_witness :
  let p := with_humidity (mkParams 985 0 0 2 18 25 50 504) 95 in
  valid (with_precipitation p 70) /\ 70 <= 150 /\ 150 <= 200 /\
  rain_humidity (with_precipitation p 70) = false /\
  pressure_rain (with_precipitation p 70) = false /\
  rain_humidity (with_precipitation p 150) = true /\
  pressure_rain (with_precipitation p 150) = true /\
  score (with_precipitation p 70) <= score (with_precipitation p 150).
Proof.
  intro p.
  assert (Hv : valid (with_precipitation p 70)).
  { unfold valid; cbn; repeat split; discriminate. }
  assert (H1 : 70 <= 150) by discriminate.
  assert (H2 : 150 <= 200) by discriminate.
  split; [exact Hv|]. split; [exact H1|]. split; [exact H2|].
  do 4 (split; [reflexivity|]).
  exact (C5_score_monotone_in_precipitation p 70 150 Hv H1 H2).
Defined.

(** ** C6 *)

(** C6. The low-risk preset is categorised BAJO (low); the critical preset
    is categorised CRITICO (critical), all four synergy guards hold on it,
    and its score is within a few points of 100: it is 100, the value
    before the final clamp being 195.5... *)
Theorem C6_presets :
  category (score preset_bajo) = BAJO /\
  score preset_bajo == 10123 # 600 /\
  category (score preset_critico) = CRITICO /\
  (rain_humidity preset_critico = true /\
   volume_velocity preset_critico = true /\
   sediments_volume preset_critico = true /\
   pressure_rain preset_critico = true) /\
  multiplier preset_critico == 1.25 * 1.3 * 1.15 * 1.2 /\
  synergy preset_critico (base_risk preset_critico) * 100 == 250263 # 1280 /\
  score preset_critico == 100 /\
  95 <= score preset_critico <= 100.
Proof.
  repeat split; try reflexivity; vm_compute; discriminate.
Qed.

(** ** C10 *)

(** C10. The score is not monotone in temperature: at the slider defaults,
    raising the temperature from 32 to 33 lowers the score, because the
    temperature contribution drops from 0.8 to 0.5; the final clamp is not
    saturated there. *)
Theorem C10_score_not_monotone_in_temperature :
  exists p : ParameterSet,
    valid (with_temperature p 32) /\ valid (with_temperature p 33) /\
    in_slider_range (with_temperature p 32) /\
    in_slider_range (with_temperature p 33) /\
    temp_risk 32 == 0.8 /\ temp_risk 33 == 0.5 /\
    score (with_temperature p 33) < score (with_temperature p 32) /\
    score (with_temperature p 32) < 100 /\
    score (with_temperature p 32) - score (with_temperature p 33) == 0.6.
Proof.
  exists slider_defaults.
  unfold valid, in_slider_range.
  repeat split; try reflexivity; vm_compute; try discriminate; reflexivity.
Qed.

(** ** The same evaluations on binary64 numbers *)

Module Binary64Facts.

Import PrimFloat.

#[local] Set Warnings "-inexact-float".

Local Open Scope float_scope.

Example binary64_preset_bajo :
  Binary64.calculate_flood_risk 1015 60 10 1.5 8 20 30 200
    = 16.871666666666666 /\
  Binary64.category
    (Binary64.calculate_flood_risk 1015 60 10 1.5 8 20 30 200) = BAJO.
Proof. split; vm_compute; reflexivity. Qed.

Example binary64_preset_critico :
  Binary64.calculate_flood_risk 985 95 180 7.5 55 29 400 1800 = 100 /\
  Binary64.category
    (Binary64.calculate_flood_risk 985 95 180 7.5 55 29 400 1800) = CRITICO.
Proof. split; vm_compute; reflexivity. Qed.

Example binary64_slider_defaults :
  Binary64.calculate_flood_risk 1000 83 50 2.0 18 25 50 504
    = 33.958333333333336.
Proof. vm_compute. reflexivity. Qed.

Example binary64_temperature_32_33 :
  Binary64.calculate_flood_risk 1000 83 50 2.0 18 32 50 504
    = 34.225000000000009 /\
  Binary64.calculate_flood_risk 1000 83 50 2.0 18 33 50 504
    = 33.625000000000007.
Proof. split; vm_compute; reflexivity. Qed.

Example binary64_humidity_100_150 :
  Binary64.calculate_flood_risk 1000 100 50 2.0 18 25 50 504
    = 36.50833333333334 /\
  Binary64.calculate_flood_risk 1000 150 50 2.0 18 25 50 504
    = 44.008333333333333.
Proof. split; vm_compute; reflexivity. Qed.

Example binary64_category_boundaries :
  Binary64.category 30 = MODERADO /\ Binary64.category 60 = ALTO /\
  Binary64.category 80 = CRITICO.
Proof. repeat split. Qed.

End Binary64Facts.

(** ** A quotient at or above the cap *)

Lemma min_cap (x : Q) : 1 <= x -> min x 1 == 1.
Proof. intro H. unfold min. split_tests; lra. Qed.

Lemma min_div_cap (x c : Q) : 0 < c -> c <= x -> min (x / c) 1 == 1.
Proof.
  intros Hc H. apply min_cap. apply Qle_shift_div_l; [exact Hc | lra].
Qed.

Lemma min_le_cap (x : Q) : min x 1 <= 1.
Proof. unfold min. split_tests; lra. Qed.

(** ** The synthetic series *)

Module SeriesFacts.

Import Series.

Section Facts.

Context {np : NumPy}.

Lemma draws_length {S A : Type} (draw : S -> A * S) (n : nat) (s : S) :
  length (fst (draws draw n s)) = n.
Proof.
  revert s. induction n as [|n IH]; intro s; cbn; [reflexivity|].
  destruct (draw s) as [x s1]. specialize (IH s1).
  destruct (draws draw n s1) as [xs s2]. cbn in *. now rewrite IH.
Qed.

Lemma np_arange_length (n : Z) : length (np_arange n) = Z.to_nat n.
Proof. unfold np_arange. now rewrite length_map, length_seq. Qed.

Lemma zip_add_length (a b : list Q) :
  length a = length b -> length (zip_add a b) = length a.
Proof.
  revert b. induction a as [|x a IH]; intros [|y b] H; cbn in *;
    try reflexivity; try discriminate.
  f_equal. apply IH. now injection H.
Qed.

Lemma clip_length (a : list Q) (lo hi : Q) : length (clip a lo hi) = length a.
Proof. apply length_map. Qed.

Lemma rows_of_length (n : nat) (f : list Timestamp) (pr te hu ps vi ca : list Q) :
  length f = n -> length pr = n -> length te = n -> length hu = n ->
  length ps = n -> length vi = n -> length ca = n ->
  length (rows_of f pr te hu ps vi ca) = n.
Proof.
  revert f pr te hu ps vi ca.
  induction n as [|n IH];
    intros [|f0 f] [|pr0 pr] [|te0 te] [|hu0 hu] [|ps0 ps] [|vi0 vi]
           [|ca0 ca]; cbn; intros; try discriminate; try reflexivity.
  f_equal. apply IH; congruence.
Qed.

(** The risk of a row does not read its timestamp. *)
Lemma row_risk_ignores_fecha (f g : list Timestamp)
    (pr te hu ps vi ca : list Q) :
  length f = length g ->
  map row_risk (rows_of f pr te hu ps vi ca)
  = map row_risk (rows_of g pr te hu ps vi ca).
Proof.
  revert g pr te hu ps vi ca.
  induction f as [|f0 f IH];
    intros [|g0 g] [|pr0 pr] [|te0 te] [|hu0 hu] [|ps0 ps] [|vi0 vi]
           [|ca0 ca] H; cbn in *; try reflexivity; try discriminate.
  f_equal. apply IH. now injection H.
Qed.

Lemma date_range_length (e : Timestamp) (n : Z) :
  length (map (fun i => (e - hour * (n - 1 - Z.of_nat i))%Z)
              (seq 0 (Z.to_nat n))) = Z.to_nat n.
Proof. now rewrite length_map, length_seq. Qed.

Lemma date_range_nth (e : Timestamp) (n : Z) (i : nat) :
  (i < Z.to_nat n)%nat ->
  nth i (map (fun i => (e - hour * (n - 1 - Z.of_nat i))%Z)
             (seq 0 (Z.to_nat n))) 0%Z
  = (e - hour * (n - 1 - Z.of_nat i))%Z.
Proof.
  intro H.
  set (f := fun i : nat => (e - hour * (n - 1 - Z.of_nat i))%Z).
  rewrite (nth_indep _ 0%Z (f O))
    by (rewrite length_map, length_seq; exact H).
  rewrite map_nth, seq_nth by exact H. reflexivity.
Qed.

Lemma date_range_hourly (e : Timestamp) (n : Z) :
  hourly (map (fun i => (e - hour * (n - 1 - Z.of_nat i))%Z)
              (seq 0 (Z.to_nat n))).
Proof.
  intros i Hi. rewrite date_range_length in Hi.
  rewrite !date_range_nth by lia. lia.
Qed.

(** *** Running the monadic operations *)

Lemma bind_some {A B : Type} (c : M A) (k : A -> M B) (w w' : World) (a : A) :
  c w = Some (a, w') -> bind c k w = k a w'.
Proof. unfold bind. now intros ->. Qed.

Lemma np_random_seed_run (n : Z) (w : World) :
  np_random_seed n w = Some (tt, mkWorld (seed n) (now w)).
Proof. reflexivity. Qed.

Lemma datetime_now_run (s : RandomState) (t : Timestamp) :
  datetime_now (mkWorld s t) = Some (t, mkWorld s t).
Proof. reflexivity. Qed.

Lemma pd_date_range_run (e : Timestamp) (periods : Z) (w : World) :
  (0 <= periods)%Z ->
  pd_date_range e periods w
  = Some (map (fun i => (e - hour * (periods - 1 - Z.of_nat i))%Z)
              (seq 0 (Z.to_nat periods)), w).
Proof.
  intro H. unfold pd_date_range.
  destruct (periods <? 0)%Z eqn:E; [lia | reflexivity].
Qed.

Lemma np_random_gamma_run (shape scale : Q) (size : Z)
    (s : RandomState) (t : Timestamp) :
  (0 <= size)%Z ->
  np_random_gamma shape scale size (mkWorld s t)
  = Some (fst (draws (gamma_variate shape scale) (Z.to_nat size) s),
          mkWorld (snd (draws (gamma_variate shape scale) (Z.to_nat size) s)) t).
Proof.
  intro H. unfold np_random_gamma. cbn [rng now].
  destruct (size <? 0)%Z eqn:E; [lia|].
  now destruct (draws _ _ _).
Qed.

Lemma np_random_normal_run (loc scale : Q) (size : Z)
    (s : RandomState) (t : Timestamp) :
  (0 <= size)%Z ->
  np_random_normal loc scale size (mkWorld s t)
  = Some (fst (draws (normal_variate loc scale) (Z.to_nat size) s),
          mkWorld (snd (draws (normal_variate loc scale) (Z.to_nat size) s)) t).
Proof.
  intro H. unfold np_random_normal. cbn [rng now].
  destruct (size <? 0)%Z eqn:E; [lia|].
  now destruct (draws _ _ _).
Qed.

Lemma array_add_run (a b : list Q) (w : World) :
  length a = length b -> array_add a b w = Some (zip_add a b, w).
Proof.
  intro H. unfold array_add. now rewrite H, Nat.eqb_refl.
Qed.

Lemma pd_DataFrame_run (d : Data) (w : World) (n : nat) :
  length (fecha d) = n -> length (precipitacion d) = n ->
  length (temperatura d) = n -> length (humedad d) = n ->
  length (presion d) = n -> length (viento d) = n ->
  length (caudal d) = n ->
  pd_DataFrame d w = Some (d, w).
Proof.
  intros H0 H1 H2 H3 H4 H5 H6. unfold pd_DataFrame. cbv zeta.
  now rewrite H0, H1, H2, H3, H4, H5, H6, !Nat.eqb_refl.
Qed.

(** *** Running the generator *)

Ltac run lem := erewrite bind_some; [| lem].

Ltac column_length :=
  cbn [fecha precipitacion temperatura humedad presion viento caudal
       columns riesgo];
  repeat first
    [ rewrite clip_length
    | rewrite length_map
    | rewrite zip_add_length
    | rewrite np_arange_length
    | rewrite draws_length
    | rewrite length_seq ];
  try reflexivity.

(** Run [generate_historical_data] to its result, given that the number of
    periods is not negative. *)
Ltac run_generator Hn :=
  unfold generate_historical_data;
  run ltac:(apply np_random_seed_run);
  run ltac:(apply datetime_now_run);
  run ltac:(apply pd_date_range_run; exact Hn);
  run ltac:(apply np_random_gamma_run; exact Hn);
  run ltac:(apply np_random_normal_run; exact Hn);
  run ltac:(apply array_add_run; column_length);
  run ltac:(apply np_random_normal_run; exact Hn);
  run ltac:(apply np_random_normal_run; exact Hn);
  run ltac:(apply np_random_normal_run; exact Hn);
  run ltac:(apply np_random_normal_run; exact Hn);
  run ltac:(apply array_add_run; column_length);
  run ltac:(eapply pd_DataFrame_run; column_length);
  unfold ret; reflexivity.

(** Two calls, in any two worlds: both return, their frames agree outside
    [fecha], every column has [days * 24] entries, the timestamps are the
    hourly instants ending at the clock reading, and the generator states
    they leave behind are the same. *)
Lemma generate_historical_data_runs (days : Z) (w1 w2 : World) :
  (0 <= days)%Z ->
  exists df1 w1' df2 w2',
    generate_historical_data days w1 = Some (df1, w1') /\
    generate_historical_data days w2 = Some (df2, w2') /\
    non_timestamp df1 = non_timestamp df2 /\
    all_columns_have (Z.to_nat (days * 24)) df1 /\
    fecha (columns df1)
    = map (fun i => (now w1 - hour * (days * 24 - 1 - Z.of_nat i))%Z)
          (seq 0 (Z.to_nat (days * 24))) /\
    rng w1' = rng w2' /\ now w1' = now w1.
Proof.
  intro Hd. assert (Hn : (0 <= days * 24)%Z) by lia.
  do 4 eexists.
  split; [run_generator Hn|].
  split; [run_generator Hn|].
  split.
  { unfold non_timestamp, apply_rows, rows.
    cbn [fecha precipitacion temperatura humedad presion viento caudal
         columns riesgo].
    f_equal. apply row_risk_ignores_fecha. now rewrite !date_range_length. }
  split.
  { unfold all_columns_have, apply_rows, rows.
    cbn [fecha precipitacion temperatura humedad presion viento caudal
         columns riesgo].
    repeat split; try (column_length; fail).
    rewrite length_map. apply rows_of_length; column_length. }
  repeat split.
Qed.

(** *** C8 *)

(** C8. Two calls of the generator with the same number of days return
    frames with identical values in every column other than the timestamp
    (precipitation, temperature, humidity, pressure, wind, flow volume,
    risk), at every row.  The seed is the constant 42 set at the start of
    each call, so the calls share it whatever generator state and clock
    reading each one starts from; [w2] may be the world the first call
    left behind, at a later time. *)
Theorem C8_same_seed_same_columns (days : Z) (w1 w2 : World) :
  (0 <= days)%Z ->
  exists df1 w1' df2 w2',
    generate_historical_data days w1 = Some (df1, w1') /\
    generate_historical_data days w2 = Some (df2, w2') /\
    non_timestamp df1 = non_timestamp df2.
Proof.
  intro Hd.
  destruct (generate_historical_data_runs days w1 w2 Hd)
    as (df1 & w1' & df2 & w2' & H1 & H2 & Heq & _).
  exists df1, w1', df2, w2'. auto.
Qed.

(** *** C9 *)

(** C9. For a positive number of days the generator returns a frame of
    exactly days * 24 rows, every column of that length, whose timestamps
    are consecutive hourly instants, the last one the clock reading. *)
Theorem C9_series_has_24_rows_per_day (days : Z) (w : World) :
  (0 < days)%Z ->
  exists df w',
    generate_historical_data days w = Some (df, w') /\
    Z.of_nat (nrows df) = (days * 24)%Z /\
    all_columns_have (nrows df) df /\
    hourly (fecha (columns df)) /\
    nth (nrows df - 1) (fecha (columns df)) 0%Z = now w.
Proof.
  intro Hd.
  destruct (generate_historical_data_runs days w w) as
    (df & w' & _ & _ & H & _ & _ & Hall & Hf & _); [lia|].
  exists df, w'.
  assert (Hrows : nrows df = Z.to_nat (days * 24)) by apply Hall.
  rewrite Hrows.
  split; [exact H|]. split; [lia|]. split; [exact Hall|].
  rewrite Hf. split; [apply date_range_hourly|].
  rewrite date_range_nth by lia. lia.
Qed.

(** *** More on the generated frame *)

Lemma clip_within (a : list Q) (lo hi : Q) :
  lo <= hi -> Forall (fun x => lo <= x <= hi) (clip a lo hi).
Proof.
  intro H. unfold clip. apply Forall_forall. intros x Hx.
  apply in_map_iff in Hx. destruct Hx as (y & <- & _).
  unfold min, max. split_tests; lra.
Qed.

Lemma map_Qabs_nonneg (a : list Q) : Forall (fun x => 0 <= x) (map Qabs a).
Proof.
  apply Forall_forall. intros x Hx.
  apply in_map_iff in Hx. destruct Hx as (y & <- & _).
  apply Qabs_nonneg.
Qed.

Lemma map_row_risk_within (l : list Row) :
  Forall (fun x => 0 <= x <= 100) (map row_risk l).
Proof.
  apply Forall_forall. intros x Hx.
  apply in_map_iff in Hx. destruct Hx as (y & <- & _).
  unfold row_risk. apply calculate_flood_risk_bounds.
Qed.

(** The risk at a position is computed from the other columns at that
    position. *)
Lemma map_row_risk_nth (n : nat) (f : list Timestamp)
    (pr te hu ps vi ca : list Q) (i : nat) :
  length f = n -> length pr = n -> length te = n -> length hu = n ->
  length ps = n -> length vi = n -> length ca = n -> (i < n)%nat ->
  nth i (map row_risk (rows_of f pr te hu ps vi ca)) 0
  = calculate_flood_risk (nth i ps 0) (nth i hu 0) (nth i pr 0) 2.0
      (nth i vi 0) (nth i te 0) 50 (nth i ca 0).
Proof.
  revert f pr te hu ps vi ca i.
  induction n as [|n IH];
    intros [|f0 f] [|pr0 pr] [|te0 te] [|hu0 hu] [|ps0 ps] [|vi0 vi]
           [|ca0 ca] i; cbn [length]; intros; try discriminate; try lia.
  destruct i as [|i]; [reflexivity|].
  cbn [rows_of map nth]. apply IH; try congruence. lia.
Qed.

(** The frame a call returns, with what its construction guarantees. *)
Lemma generate_historical_data_frame (days : Z) (w : World) :
  (0 <= days)%Z ->
  exists df w',
    generate_historical_data days w = Some (df, w') /\
    all_columns_have (Z.to_nat (days * 24)) df /\
    Forall (fun x => 30 <= x <= 100) (humedad (columns df)) /\
    Forall (fun x => 50 <= x <= 2000) (caudal (columns df)) /\
    Forall (fun x => 0 <= x) (viento (columns df)) /\
    Forall (fun x => 0 <= x <= 100) (riesgo df) /\
    riesgo df = map row_risk (rows (columns df)).
Proof.
  intro Hd. assert (Hn : (0 <= days * 24)%Z) by lia.
  do 2 eexists.
  split; [run_generator Hn|].
  split.
  { unfold all_columns_have, apply_rows, rows.
    cbn [fecha precipitacion temperatura humedad presion viento caudal
         columns riesgo].
    repeat split; try (column_length; fail).
    rewrite length_map. apply rows_of_length; column_length. }
  cbn [fecha precipitacion temperatura humedad presion viento caudal
       columns riesgo].
  split; [apply clip_within; discriminate|].
  split; [apply clip_within; discriminate|].
  split; [apply map_Qabs_nonneg|].
  split; [apply map_row_risk_within | reflexivity].
Qed.

(** X14. In the frame a call returns, every humidity is within
    [30, 100], every flow volume within [50, 2000], every wind speed is
    non-negative and every risk is within [0, 100], whatever the random
    draws. *)
Theorem generated_columns_within (days : Z) (w : World) :
  (0 <= days)%Z ->
  exists df w',
    generate_historical_data days w = Some (df, w') /\
    Forall (fun x => 30 <= x <= 100) (humedad (columns df)) /\
    Forall (fun x => 50 <= x <= 2000) (caudal (columns df)) /\
    Forall (fun x => 0 <= x) (viento (columns df)) /\
    Forall (fun x => 0 <= x <= 100) (riesgo df).
Proof.
  intro Hd.
  destruct (generate_historical_data_frame days w Hd)
    as (df & w' & H & _ & Hh & Hc & Hv & Hr & _).
  exists df, w'. auto.
Qed.

(** X15. The risk column is computed row by row from the frame it is
    stored in: the risk at position [i] is [calculate_flood_risk] of the
    pressure, humidity, precipitation, wind and temperature at position
    [i] and of the flow volume at position [i] after its cut to
    [50, 2000], with flow velocity 2.0 and sediments 50. *)
Theorem riesgo_row_by_row (days : Z) (w : World) :
  (0 <= days)%Z ->
  exists df w',
    generate_historical_data days w = Some (df, w') /\
    forall i : nat, (i < nrows df)%nat ->
      nth i (riesgo df) 0
      = calculate_flood_risk
          (nth i (presion (columns df)) 0) (nth i (humedad (columns df)) 0)
          (nth i (precipitacion (columns df)) 0) 2.0
          (nth i (viento (columns df)) 0)
          (nth i (temperatura (columns df)) 0) 50
          (nth i (caudal (columns df)) 0) /\
      50 <= nth i (caudal (columns df)) 0 <= 2000.
Proof.
  intro Hd.
  destruct (generate_historical_data_frame days w Hd)
    as (df & w' & H & Hall & _ & Hc & _ & _ & Hr).
  exists df, w'. split; [exact H|].
  intros i Hi.
  destruct Hall as (L1 & L2 & L3 & L4 & L5 & L6 & L7 & _).
  unfold nrows in Hi. rewrite L1 in Hi.
  split.
  - rewrite Hr. unfold rows.
    apply (map_row_risk_nth (Z.to_nat (days * 24))); assumption.
  - rewrite Forall_forall in Hc. apply Hc, nth_In. now rewrite L7.
Qed.

(** X16. The risk of a row is the score of the row's values with flow
    velocity 2.0 and sediments 50; with these two constants the
    volume-and-velocity guard and the sediments-and-volume guard never
    hold, so only the factors 1.25 and 1.2 of the two rain guards can
    apply to a row of the series. *)
Theorem row_risk_rain_guards_only (row : Row) :
  row_risk row = score (row_params row) /\
  volume_velocity (row_params row) = false /\
  sediments_volume (row_params row) = false /\
  row_risk row ==
    min (max (base_risk (row_params row)
              * (if rain_humidity (row_params row) then 1.25 else 1)
              * (if pressure_rain (row_params row) then 1.2 else 1)
              * 100) 0) 100.
Proof.
  assert (Hvv : volume_velocity (row_params row) = false).
  { unfold volume_velocity, row_params.
    cbn [flow_volume flow_velocity]. apply andb_false_r. }
  assert (Hsv : sediments_volume (row_params row) = false) by reflexivity.
  split; [reflexivity|]. split; [exact Hvv|]. split; [exact Hsv|].
  change (row_risk row) with (score (row_params row)).
  rewrite score_multiplier. unfold multiplier. rewrite Hvv, Hsv.
  unfold factor.
  apply min_proper; [|reflexivity]. apply max_proper; [|reflexivity].
  ring.
Qed.

Lemma some_pair_inj {A B : Type} (a a' : A) (b b' : B) :
  Some (a, b) = Some (a', b') -> a = a' /\ b = b'.
Proof. intro E. injection E as -> ->. split; reflexivity. Qed.

(** X17. A call overwrites NumPy's global generator: the state it leaves
    behind is the same whatever the state and the clock before the call,
    and it does not depend on anything but the number of days. *)
Theorem generator_state_after_call (days : Z) (w1 w2 : World) :
  (0 <= days)%Z ->
  exists df1 w1' df2 w2',
    generate_historical_data days w1 = Some (df1, w1') /\
    generate_historical_data days w2 = Some (df2, w2') /\
    rng w1' = rng w2'.
Proof.
  intro Hd.
  destruct (generate_historical_data_runs days w1 w2 Hd)
    as (df1 & w1' & df2 & w2' & H1 & H2 & _ & _ & _ & Hr & _).
  exists df1, w1', df2, w2'. auto.
Qed.

(** X18. The timestamp column depends on the clock by translation only:
    two calls read at clock values [t1] and [t2] return timestamps that
    differ by [t2 - t1] at every position. *)
Theorem fecha_translates_with_clock (days : Z) (w1 w2 : World) :
  (0 <= days)%Z ->
  exists df1 w1' df2 w2',
    generate_historical_data days w1 = Some (df1, w1') /\
    generate_historical_data days w2 = Some (df2, w2') /\
    nrows df1 = nrows df2 /\
    forall i : nat, (i < nrows df1)%nat ->
      (nth i (fecha (columns df2)) 0 - nth i (fecha (columns df1)) 0
       = now w2 - now w1)%Z.
Proof.
  intro Hd.
  destruct (generate_historical_data_runs days w1 w2 Hd)
    as (df1 & w1' & df2 & w2' & H1 & H2 & _ & _ & Hf1 & _).
  destruct (generate_historical_data_runs days w2 w1 Hd)
    as (df2' & w2'' & _ & _ & H2' & _ & _ & _ & Hf2 & _).
  rewrite H2 in H2'. apply some_pair_inj in H2'. destruct H2' as [<- _].
  exists df1, w1', df2, w2'.
  split; [exact H1|]. split; [exact H2|].
  unfold nrows. rewrite Hf1, Hf2, !date_range_length.
  split; [reflexivity|].
  intros i Hi. rewrite !date_range_nth by exact Hi. lia.
Qed.

(** *** The summary table *)

Lemma fold_min_below (l : list Q) (x : Q) :
  fold_left min l x <= x /\ Forall (fun y => fold_left min l x <= y) l.
Proof.
  revert x. induction l as [|a l IH]; intro x; cbn [fold_left].
  - split; [apply Qle_refl | constructor].
  - destruct (IH (min x a)) as [H1 H2].
    assert (Hx : min x a <= x) by (unfold min; split_tests; lra).
    assert (Ha : min x a <= a) by (unfold min; split_tests; lra).
    split; [lra|]. constructor; [lra | exact H2].
Qed.

Lemma fold_max_above (l : list Q) (x : Q) :
  x <= fold_left max l x /\ Forall (fun y => y <= fold_left max l x) l.
Proof.
  revert x. induction l as [|a l IH]; intro x; cbn [fold_left].
  - split; [apply Qle_refl | constructor].
  - destruct (IH (max x a)) as [H1 H2].
    assert (Hx : x <= max x a) by (unfold max; split_tests; lra).
    assert (Ha : a <= max x a) by (unfold max; split_tests; lra).
    split; [lra|]. constructor; [lra | exact H2].
Qed.

Lemma fold_min_above (l : list Q) (x c : Q) :
  c <= x -> Forall (fun y => c <= y) l -> c <= fold_left min l x.
Proof.
  revert x. induction l as [|a l IH]; intros x Hx Hl; cbn [fold_left];
    [exact Hx|].
  inversion Hl as [|? ? Ha Hl']; subst.
  apply IH; [|exact Hl']. unfold min. split_tests; lra.
Qed.

Lemma fold_max_below (l : list Q) (x c : Q) :
  x <= c -> Forall (fun y => y <= c) l -> fold_left max l x <= c.
Proof.
  revert x. induction l as [|a l IH]; intros x Hx Hl; cbn [fold_left];
    [exact Hx|].
  inversion Hl as [|? ? Ha Hl']; subst.
  apply IH; [|exact Hl']. unfold max. split_tests; lra.
Qed.

Lemma inject_length_cons {A : Type} (a : A) (l : list A) :
  inject_Z (Z.of_nat (length (a :: l)))
  == inject_Z (Z.of_nat (length l)) + 1.
Proof.
  cbn [length]. rewrite Nat2Z.inj_succ, <- Z.add_1_r, inject_Z_plus.
  reflexivity.
Qed.

Lemma sum_above (l : list Q) (acc m : Q) :
  Forall (fun y => m <= y) l ->
  acc + m * inject_Z (Z.of_nat (length l)) <= fold_left Qplus l acc.
Proof.
  revert acc. induction l as [|a l IH]; intros acc Hl.
  - cbn [length fold_left Z.of_nat]. change (inject_Z 0) with 0. lra.
  - inversion Hl as [|? ? Ha Hl']; subst.
    cbn [fold_left]. specialize (IH (acc + a) Hl').
    rewrite inject_length_cons. lra.
Qed.

Lemma sum_below (l : list Q) (acc m : Q) :
  Forall (fun y => y <= m) l ->
  fold_left Qplus l acc <= acc + m * inject_Z (Z.of_nat (length l)).
Proof.
  revert acc. induction l as [|a l IH]; intros acc Hl.
  - cbn [length fold_left Z.of_nat]. change (inject_Z 0) with 0. lra.
  - inversion Hl as [|? ? Ha Hl']; subst.
    cbn [fold_left]. specialize (IH (acc + a) Hl').
    rewrite inject_length_cons. lra.
Qed.

(** The minimum, the mean and the maximum of a column that is not empty
    exist, are in this order, and stay within any bounds the entries
    keep. *)
Lemma summary_within (l : list Q) (a b : Q) :
  l <> [] -> Forall (fun y => a <= y <= b) l ->
  exists lo mu hi,
    series_min l = Some lo /\ series_mean l = Some mu /\
    series_max l = Some hi /\
    a <= lo /\ lo <= mu /\ mu <= hi /\ hi <= b.
Proof.
  destruct l as [|x l]; [congruence|]. intros _ Hl.
  do 3 eexists. repeat (split; [reflexivity|]).
  inversion Hl as [|? ? Hx Hl']; subst.
  assert (Hlow : Forall (fun y => a <= y) l)
    by (eapply Forall_impl; [|exact Hl']; cbn; intros; tauto).
  assert (Hupp : Forall (fun y => y <= b) l)
    by (eapply Forall_impl; [|exact Hl']; cbn; intros; tauto).
  destruct (fold_min_below l x) as [Hm1 Hm2].
  destruct (fold_max_above l x) as [HM1 HM2].
  set (lo := fold_left min l x) in *. set (hi := fold_left max l x) in *.
  assert (Hn : 0 < inject_Z (Z.of_nat (length (x :: l)))).
  { rewrite inject_length_cons.
    assert (0 <= inject_Z (Z.of_nat (length l))).
    { change 0 with (inject_Z 0). rewrite <- Zle_Qle. lia. }
    lra. }
  split; [apply fold_min_above; [tauto | exact Hlow]|].
  split.
  { apply Qle_shift_div_l; [exact Hn|].
    assert (F : Forall (fun y => lo <= y) (x :: l))
      by (constructor; assumption).
    pose proof (sum_above (x :: l) 0 lo F). lra. }
  split.
  { apply Qle_shift_div_r; [exact Hn|].
    assert (F : Forall (fun y => y <= hi) (x :: l))
      by (constructor; assumption).
    pose proof (sum_below (x :: l) 0 hi F). lra. }
  apply fold_max_below; [tauto | exact Hupp].
Qed.

(** X19. For a positive number of days, the minimum, the mean and the
    maximum the summary table takes of the risk, humidity and flow-volume
    columns exist and are ordered, within [0, 100] for the risk,
    [30, 100] for the humidity and [50, 2000] for the flow volume. *)
Theorem summary_table_within (days : Z) (w : World) :
  (0 < days)%Z ->
  exists df w',
    generate_historical_data days w = Some (df, w') /\
    (exists lo mu hi,
       series_min (riesgo df) = Some lo /\
       series_mean (riesgo df) = Some mu /\
       series_max (riesgo df) = Some hi /\
       0 <= lo /\ lo <= mu /\ mu <= hi /\ hi <= 100) /\
    (exists lo mu hi,
       series_min (humedad (columns df)) = Some lo /\
       series_mean (humedad (columns df)) = Some mu /\
       series_max (humedad (columns df)) = Some hi /\
       30 <= lo /\ lo <= mu /\ mu <= hi /\ hi <= 100) /\
    (exists lo mu hi,
       series_min (caudal (columns df)) = Some lo /\
       series_mean (caudal (columns df)) = Some mu /\
       series_max (caudal (columns df)) = Some hi /\
       50 <= lo /\ lo <= mu /\ mu <= hi /\ hi <= 2000).
Proof.
  intro Hd.
  destruct (generate_historical_data_frame days w) as
    (df & w' & H & Hall & Hh & Hc & _ & Hr & _); [lia|].
  exists df, w'. split; [exact H|].
  destruct Hall as (_ & _ & _ & L4 & _ & _ & L7 & L8).
  assert (Hne : forall l : list Q,
             length l = Z.to_nat (days * 24) -> l <> []).
  { intros l Hl E. rewrite E in Hl. cbn in Hl. lia. }
  split; [apply summary_within; [apply Hne, L8 | exact Hr]|].
  split; [apply summary_within; [apply Hne, L4 | exact Hh]|].
  apply summary_within; [apply Hne, L7 | exact Hc].
Qed.

End Facts.

Lemma C8_same_seed_same_columns_witness :
  (0 <= 30)%Z /\
  exists df1 w1' df2 w2',
    generate_historical_data (np := ToyNumPy) 30 (mkWorld (np := ToyNumPy) 7%Z 1000%Z)
      = Some (df1, w1') /\
    generate_historical_data (np := ToyNumPy) 30 (mkWorld (np := ToyNumPy) 99%Z 5000%Z)
      = Some (df2, w2') /\
    non_timestamp df1 = non_timestamp df2.
Proof.
  assert (H : (0 <= 30)%Z) by lia.
  split; [exact H|].
  exact (C8_same_seed_same_columns (np := ToyNumPy) 30
           (mkWorld (np := ToyNumPy) 7%Z 1000%Z) (mkWorld (np := ToyNumPy) 99%Z 5000%Z) H).
Defined.

Lemma C9_series_has_24_rows_per_day_witness :
  (0 < 30)%Z /\
  exists df w',
    generate_historical_data (np := ToyNumPy) 30 (mkWorld (np := ToyNumPy) 7%Z 1000%Z)
      = Some (df, w') /\
    Z.of_nat (nrows df) = (30 * 24)%Z /\
    all_columns_have (nrows df) df /\
    hourly (fecha (columns df)) /\
    nth (nrows df - 1) (fecha (columns df)) 0%Z
      = now (mkWorld (np := ToyNumPy) 7%Z 1000%Z).
Proof.
  assert (H : (0 < 30)%Z) by lia.
  split; [exact H|].
  exact (C9_series_has_24_rows_per_day (np := ToyNumPy) 30
           (mkWorld (np := ToyNumPy) 7%Z 1000%Z) H).
Defined.

Lemma generated_columns_within_witness :
  (0 <= 30)%Z /\
  exists df w',
    generate_historical_data (np := ToyNumPy) 30
      (mkWorld (np := ToyNumPy) 7%Z 1000%Z) = Some (df, w') /\
    Forall (fun x => 30 <= x <= 100) (humedad (columns df)) /\
    Forall (fun x => 50 <= x <= 2000) (caudal (columns df)) /\
    Forall (fun x => 0 <= x) (viento (columns df)) /\
    Forall (fun x => 0 <= x <= 100) (riesgo df).
Proof.
  assert (H : (0 <= 30)%Z) by lia.
  split; [exact H|].
  exact (generated_columns_within (np := ToyNumPy) 30
           (mkWorld (np := ToyNumPy) 7%Z 1000%Z) H).
Defined.

Lemma riesgo_row_by_row_witness :
  (0 <= 30)%Z /\
  exists df w',
    generate_historical_data (np := ToyNumPy) 30
      (mkWorld (np := ToyNumPy) 7%Z 1000%Z) = Some (df, w') /\
    forall i : nat, (i < nrows df)%nat ->
      nth i (riesgo df) 0
      = calculate_flood_risk
          (nth i (presion (columns df)) 0) (nth i (humedad (columns df)) 0)
          (nth i (precipitacion (columns df)) 0) 2.0
          (nth i (viento (columns df)) 0)
          (nth i (temperatura (columns df)) 0) 50
          (nth i (caudal (columns df)) 0) /\
      50 <= nth i (caudal (columns df)) 0 <= 2000.
Proof.
  assert (H : (0 <= 30)%Z) by lia.
  split; [exact H|].
  exact (riesgo_row_by_row (np := ToyNumPy) 30
           (mkWorld (np := ToyNumPy) 7%Z 1000%Z) H).
Defined.

Lemma generator_state_after_call_witness :
  (0 <= 30)%Z /\
  exists df1 w1' df2 w2',
    generate_historical_data (np := ToyNumPy) 30
      (mkWorld (np := ToyNumPy) 7%Z 1000%Z) = Some (df1, w1') /\
    generate_historical_data (np := ToyNumPy) 30
      (mkWorld (np := ToyNumPy) 99%Z 5000%Z) = Some (df2, w2') /\
    rng w1' = rng w2'.
Proof.
  assert (H : (0 <= 30)%Z) by lia.
  split; [exact H|].
  exact (generator_state_after_call (np := ToyNumPy) 30
           (mkWorld (np := ToyNumPy) 7%Z 1000%Z)
           (mkWorld (np := ToyNumPy) 99%Z 5000%Z) H).
Defined.

Lemma fecha_translates_with_clock_witness :
  (0 <= 30)%Z /\
  exists df1 w1' df2 w2',
    generate_historical_data (np := ToyNumPy) 30
      (mkWorld (np := ToyNumPy) 7%Z 1000%Z) = Some (df1, w1') /\
    generate_historical_data (np := ToyNumPy) 30
      (mkWorld (np := ToyNumPy) 99%Z 5000%Z) = Some (df2, w2') /\
    nrows df1 = nrows df2 /\
    forall i : nat, (i < nrows df1)%nat ->
      (nth i (fecha (columns df2)) 0 - nth i (fecha (columns df1)) 0
       = 5000 - 1000)%Z.
Proof.
  assert (H : (0 <= 30)%Z) by lia.
  split; [exact H|].
  exact (fecha_translates_with_clock (np := ToyNumPy) 30
           (mkWorld (np := ToyNumPy) 7%Z 1000%Z)
           (mkWorld (np := ToyNumPy) 99%Z 5000%Z) H).
Defined.

Lemma summary_table_within_witness :
  (0 < 30)%Z /\
  exists df w',
    generate_historical_data (np := ToyNumPy) 30
      (mkWorld (np := ToyNumPy) 7%Z 1000%Z) = Some (df, w') /\
    (exists lo mu hi,
       series_min (riesgo df) = Some lo /\
       series_mean (riesgo df) = Some mu /\
       series_max (riesgo df) = Some hi /\
       0 <= lo /\ lo <= mu /\ mu <= hi /\ hi <= 100) /\
    (exists lo mu hi,
       series_min (humedad (columns df)) = Some lo /\
       series_mean (humedad (columns df)) = Some mu /\
       series_max (humedad (columns df)) = Some hi /\
       30 <= lo /\ lo <= mu /\ mu <= hi /\ hi <= 100) /\
    (exists lo mu hi,
       series_min (caudal (columns df)) = Some lo /\
       series_mean (caudal (columns df)) = Some mu /\
       series_max (caudal (columns df)) = Some hi /\
       50 <= lo /\ lo <= mu /\ mu <= hi /\ hi <= 2000).
Proof.
  assert (H : (0 < 30)%Z) by lia.
  split; [exact H|].
  exact (summary_table_within (np := ToyNumPy) 30
           (mkWorld (np := ToyNumPy) 7%Z 1000%Z) H).
Defined.

(** The generator runs on the small instance: one day gives 24 rows, and a
    negative number of days raises. *)
Example generate_one_day :
  option_map (fun r => nrows (fst r))
    (generate_historical_data (np := ToyNumPy) 1 (mkWorld (np := ToyNumPy) 7%Z 1000%Z))
  = Some 24%nat.
Proof. vm_compute. reflexivity. Qed.

Example generate_negative_days :
  generate_historical_data (np := ToyNumPy) (-1) (mkWorld (np := ToyNumPy) 7%Z 1000%Z) = None.
Proof. reflexivity. Qed.

End SeriesFacts.

(** * More on the scoring function *)

(** ** How the score moves with each input *)

(** The score is ordered as the base risk and the multiplier are. *)
Lemma score_le_of_parts (p q : ParameterSet) :
  base_risk p <= base_risk q -> multiplier p <= multiplier q ->
  score p <= score q.
Proof.
  intros Hb Hm.
  rewrite !score_multiplier.
  pose proof (multiplier_ge_1 p) as H1.
  set (b1 := base_risk p) in *. set (b2 := base_risk q) in *.
  set (m1 := multiplier p) in *. set (m2 := multiplier q) in *.
  clearbody b1 b2 m1 m2.
  destruct (Qlt_le_dec b1 0) as [Hneg|Hpos].
  - assert (Hx : b1 * m1 <= 0 * m1) by (apply Qmult_le_compat_r; lra).
    apply Qle_trans with 0; [|apply final_clamp_bounds].
    unfold min, max. split_tests; lra.
  - apply final_clamp_mono.
    assert (Hl : m1 * b1 <= m2 * b1) by (apply Qmult_le_compat_r; lra).
    assert (Hr : b1 * m2 <= b2 * m2) by (apply Qmult_le_compat_r; lra).
    lra.
Qed.

Lemma Qltb_mono_r (c x y : Q) : x <= y -> (c <? x) = true -> (c <? y) = true.
Proof. rewrite !Qltb_lt. intros. lra. Qed.

Lemma Qltb_mono_l (c x y : Q) : x <= y -> (y <? c) = true -> (x <? c) = true.
Proof. rewrite !Qltb_lt. intros. lra. Qed.

(** A guard that stays on keeps the multiplier at least as large. *)
Lemma multiplier_le (p q : ParameterSet) :
  (rain_humidity p = true -> rain_humidity q = true) ->
  (volume_velocity p = true -> volume_velocity q = true) ->
  (sediments_volume p = true -> sediments_volume q = true) ->
  (pressure_rain p = true -> pressure_rain q = true) ->
  multiplier p <= multiplier q.
Proof.
  unfold multiplier, factor.
  destruct (rain_humidity p), (rain_humidity q);
  destruct (volume_velocity p), (volume_velocity q);
  destruct (sediments_volume p), (sediments_volume q);
  destruct (pressure_rain p), (pressure_rain q);
  intros H1 H2 H3 H4;
  try (specialize (H1 eq_refl); discriminate H1);
  try (specialize (H2 eq_refl); discriminate H2);
  try (specialize (H3 eq_refl); discriminate H3);
  try (specialize (H4 eq_refl); discriminate H4);
  vm_compute; discriminate.
Qed.

Lemma capped_mono (x y c : Q) :
  0 < c -> x <= y -> min (x / c) 1 <= min (y / c) 1.
Proof.
  intros Hc H. apply min_le_mono. unfold Qdiv.
  apply Qmult_le_compat_r; [exact H|].
  apply Qlt_le_weak, Qinv_lt_0_compat, Hc.
Qed.

Lemma norm_pressure_antitone (x y : Q) :
  x <= y -> norm_pressure y <= norm_pressure x.
Proof.
  intro H. unfold norm_pressure, min, max. const_div. split_tests; lra.
Qed.

Lemma temp_risk_mono_within (t1 t2 : Q) :
  t1 <= t2 -> t2 <= 32 \/ 32 < t1 -> temp_risk t1 <= temp_risk t2.
Proof.
  intros H Hb. unfold temp_risk, max. const_div.
  destruct Hb; split_tests; lra.
Qed.

(** Reduce the projections of a record rebuilt by one of the setters. *)
Ltac project :=
  cbn [with_pressure with_humidity with_precipitation with_flow_velocity
       with_wind_speed with_temperature with_sediments with_flow_volume
       pressure humidity precipitation flow_velocity wind_speed temperature
       sediments flow_volume].

(** The base risk moves with one of its eight terms. *)
Ltac base_term H :=
  unfold base_risk; project;
  repeat apply Qplus_le_compat; try apply Qle_refl;
  apply Qmult_le_compat_r; [exact H | vm_compute; discriminate].

(** A guard survives when the input it tests only moves its way. *)
Ltac guard_stays H :=
  unfold rain_humidity, volume_velocity, sediments_volume, pressure_rain;
  project; rewrite !andb_true_iff; intros [? ?]; split;
  solve [ assumption
        | eapply Qltb_mono_r; [exact H | assumption]
        | eapply Qltb_mono_l; [exact H | assumption] ].

Ltac score_moves Hbase H :=
  apply score_le_of_parts;
  [ base_term Hbase | apply multiplier_le; guard_stays H ].

(** X1. With the other arguments fixed, whatever they are, the score never
    decreases when humidity grows, the threshold at 90 of the
    rain-and-humidity guard included. *)
Theorem score_monotone_in_humidity (p : ParameterSet) (x y : Q) :
  x <= y -> score (with_humidity p x) <= score (with_humidity p y).
Proof.
  intro H.
  assert (Hn : norm_humidity x <= norm_humidity y).
  { unfold norm_humidity, Qdiv. apply Qmult_le_compat_r; [exact H|discriminate]. }
  score_moves Hn H.
Qed.

(** X2. With the other arguments fixed, whatever they are, the score never
    decreases when the flow volume grows, the thresholds at 800 and 1200
    of the two guards that test it included. *)
Theorem score_monotone_in_flow_volume (p : ParameterSet) (x y : Q) :
  x <= y -> score (with_flow_volume p x) <= score (with_flow_volume p y).
Proof.
  intro H.
  assert (Hn : norm_flow_volume x <= norm_flow_volume y)
    by (apply capped_mono; [reflexivity | exact H]).
  score_moves Hn H.
Qed.

(** X3. With the other arguments fixed, whatever they are, the score never
    decreases when the flow velocity grows, the threshold at 5 of the
    volume-and-velocity guard included. *)
Theorem score_monotone_in_flow_velocity (p : ParameterSet) (x y : Q) :
  x <= y -> score (with_flow_velocity p x) <= score (with_flow_velocity p y).
Proof.
  intro H.
  assert (Hn : norm_flow_velocity x <= norm_flow_velocity y)
    by (apply capped_mono; [reflexivity | exact H]).
  score_moves Hn H.
Qed.

(** X4. With the other arguments fixed, whatever they are, the score never
    decreases when the sediments grow, the threshold at 300 of the
    sediments-and-volume guard included. *)
Theorem score_monotone_in_sediments (p : ParameterSet) (x y : Q) :
  x <= y -> score (with_sediments p x) <= score (with_sediments p y).
Proof.
  intro H.
  assert (Hn : norm_sediments x <= norm_sediments y)
    by (apply capped_mono; [reflexivity | exact H]).
  score_moves Hn H.
Qed.

(** X5. With the other arguments fixed, whatever they are, the score never
    decreases when the wind speed grows. *)
Theorem score_monotone_in_wind_speed (p : ParameterSet) (x y : Q) :
  x <= y -> score (with_wind_speed p x) <= score (with_wind_speed p y).
Proof.
  intro H.
  assert (Hn : norm_wind_speed x <= norm_wind_speed y)
    by (apply capped_mono; [reflexivity | exact H]).
  score_moves Hn H.
Qed.

(** X6. With the other arguments fixed, whatever they are, the score never
    increases when the pressure grows: a lower pressure never lowers the
    score, the threshold at 990 of the pressure-and-rain guard included. *)
Theorem score_antitone_in_pressure (p : ParameterSet) (x y : Q) :
  x <= y -> score (with_pressure p y) <= score (with_pressure p x).
Proof.
  intro H.
  pose proof (norm_pressure_antitone x y H) as Hn.
  score_moves Hn H.
Qed.

(** X7. With the other arguments fixed, whatever they are, the score never
    decreases when the temperature grows from [t1] to [t2] unless 32 lies
    between them ([t1 <= 32 < t2]): the drop of the temperature
    contribution after 32 is the only place the score can fall. *)
Theorem score_monotone_in_temperature_off_32
    (p : ParameterSet) (t1 t2 : Q) :
  t1 <= t2 -> t2 <= 32 \/ 32 < t1 ->
  score (with_temperature p t1) <= score (with_temperature p t2).
Proof.
  intros H Hb.
  pose proof (temp_risk_mono_within t1 t2 H Hb) as Hn.
  apply score_le_of_parts; [base_term Hn | apply Qle_refl].
Qed.

Lemma score_monotone_in_humidity_witness :
  let p := with_precipitation slider_defaults 150 in
  85 <= 95 /\
  rain_humidity (with_humidity p 85) = false /\
  rain_humidity (with_humidity p 95) = true /\
  score (with_humidity p 85) <= score (with_humidity p 95).
Proof.
  intro p. assert (H : 85 <= 95) by discriminate.
  split; [exact H|]. do 2 (split; [reflexivity|]).
  exact (score_monotone_in_humidity p 85 95 H).
Defined.

Lemma score_monotone_in_flow_volume_witness :
  let p := with_flow_velocity (with_sediments slider_defaults 400) 7.5 in
  700 <= 1300 /\
  sediments_volume (with_flow_volume p 700) = false /\
  volume_velocity (with_flow_volume p 700) = false /\
  sediments_volume (with_flow_volume p 1300) = true /\
  volume_velocity (with_flow_volume p 1300) = true /\
  score (with_flow_volume p 700) <= score (with_flow_volume p 1300).
Proof.
  intro p. assert (H : 700 <= 1300) by discriminate.
  split; [exact H|]. do 4 (split; [reflexivity|]).
  exact (score_monotone_in_flow_volume p 700 1300 H).
Defined.

Lemma score_monotone_in_flow_velocity_witness :
  let p := with_flow_volume slider_defaults 1500 in
  4 <= 6 /\
  volume_velocity (with_flow_velocity p 4) = false /\
  volume_velocity (with_flow_velocity p 6) = true /\
  score (with_flow_velocity p 4) <= score (with_flow_velocity p 6).
Proof.
  intro p. assert (H : 4 <= 6) by discriminate.
  split; [exact H|]. do 2 (split; [reflexivity|]).
  exact (score_monotone_in_flow_velocity p 4 6 H).
Defined.

Lemma score_monotone_in_sediments_witness :
  let p := with_flow_volume slider_defaults 1500 in
  250 <= 350 /\
  sediments_volume (with_sediments p 250) = false /\
  sediments_volume (with_sediments p 350) = true /\
  score (with_sediments p 250) <= score (with_sediments p 350).
Proof.
  intro p. assert (H : 250 <= 350) by discriminate.
  split; [exact H|]. do 2 (split; [reflexivity|]).
  exact (score_monotone_in_sediments p 250 350 H).
Defined.

Lemma score_monotone_in_wind_speed_witness :
  18 <= 60 /\
  score (with_wind_speed slider_defaults 18)
  <= score (with_wind_speed slider_defaults 60).
Proof.
  assert (H : 18 <= 60) by discriminate.
  split; [exact H|].
  exact (score_monotone_in_wind_speed slider_defaults 18 60 H).
Defined.

Lemma score_antitone_in_pressure_witness :
  let p := with_precipitation slider_defaults 150 in
  985 <= 1000 /\
  pressure_rain (with_pressure p 985) = true /\
  pressure_rain (with_pressure p 1000) = false /\
  score (with_pressure p 1000) <= score (with_pressure p 985).
Proof.
  intro p. assert (H : 985 <= 1000) by discriminate.
  split; [exact H|]. do 2 (split; [reflexivity|]).
  exact (score_antitone_in_pressure p 985 1000 H).
Defined.

Lemma score_monotone_in_temperature_off_32_witness :
  20 <= 30 /\ (30 <= 32 \/ 32 < 20) /\
  score (with_temperature slider_defaults 20)
  <= score (with_temperature slider_defaults 30).
Proof.
  assert (H : 20 <= 30) by discriminate.
  assert (Hb : 30 <= 32 \/ 32 < 20) by (left; discriminate).
  split; [exact H|]. split; [exact Hb|].
  exact (score_monotone_in_temperature_off_32 slider_defaults 20 30 H Hb).
Defined.

(** ** Inputs beyond the ends of their ranges *)

Lemma capped_saturated (x c : Q) :
  0 < c -> min (min x c / c) 1 == min (x / c) 1.
Proof.
  intro Hc.
  assert (Hcc : c / c == 1) by (field; lra).
  unfold min at 2. destruct (c <? x) eqn:E; [|reflexivity].
  apply Qltb_lt in E. rewrite Hcc.
  assert (H1 : 1 <= x / c) by (apply Qle_shift_div_l; [exact Hc | lra]).
  unfold min. split_tests; lra.
Qed.

Lemma norm_pressure_saturated (x : Q) :
  norm_pressure (min (max x 980) 1020) == norm_pressure x.
Proof.
  unfold norm_pressure, min, max. const_div. split_tests; lra.
Qed.

Lemma temp_risk_saturated (t : Q) : temp_risk (max t 15) == temp_risk t.
Proof.
  unfold temp_risk, max. const_div. split_tests; lra.
Qed.

Lemma Qltb_min_cap (c x cap : Q) :
  c < cap -> (c <? min x cap) = (c <? x).
Proof.
  intro H. apply eq_true_iff_eq. rewrite !Qltb_lt.
  unfold min. split_tests; split; intro; lra.
Qed.

Lemma Qltb_pressure_cut (x : Q) :
  (min (max x 980) 1020 <? 990) = (x <? 990).
Proof.
  apply eq_true_iff_eq. rewrite !Qltb_lt.
  unfold min, max. split_tests; split; intro; lra.
Qed.

Lemma base_risk_saturated (p : ParameterSet) :
  base_risk (saturated p) == base_risk p.
Proof.
  unfold base_risk, saturated.
  cbn [pressure humidity precipitation flow_velocity wind_speed temperature
       sediments flow_volume].
  rewrite norm_pressure_saturated, temp_risk_saturated.
  unfold norm_precipitation, norm_flow_volume, norm_flow_velocity,
    norm_sediments, norm_wind_speed.
  rewrite !capped_saturated by reflexivity.
  reflexivity.
Qed.

Lemma multiplier_saturated (p : ParameterSet) :
  multiplier (saturated p) = multiplier p.
Proof.
  unfold multiplier, rain_humidity, volume_velocity, sediments_volume,
    pressure_rain, saturated.
  cbn [pressure humidity precipitation flow_velocity wind_speed temperature
       sediments flow_volume].
  rewrite !Qltb_min_cap by reflexivity.
  rewrite Qltb_pressure_cut. reflexivity.
Qed.

(** X8. The score reads its inputs only up to the ends of the ranges of
    its normalisation: cutting precipitation at 200, flow volume at 2000,
    flow velocity at 10, sediments at 500, wind speed at 80, pressure to
    [980, 1020] and raising temperature to 15 leaves the score of every
    input unchanged, synergy guards included. *)
Theorem score_of_saturated (p : ParameterSet) :
  score (saturated p) == score p.
Proof.
  rewrite !score_multiplier, base_risk_saturated, multiplier_saturated.
  reflexivity.
Qed.

(** ** The base risk on valid inputs *)

Lemma capped_unit (x c : Q) : 0 < c -> 0 <= x -> 0 <= min (x / c) 1 <= 1.
Proof.
  intros Hc Hx.
  assert (H0 : 0 <= x / c).
  { unfold Qdiv. apply Qmult_le_0_compat; [exact Hx|].
    apply Qlt_le_weak, Qinv_lt_0_compat, Hc. }
  unfold min. split_tests; lra.
Qed.

Lemma norm_pressure_unit (x : Q) : 0 <= norm_pressure x <= 1.
Proof. unfold norm_pressure, min, max. split_tests; lra. Qed.

Lemma temp_risk_range (t : Q) : 0 <= temp_risk t <= 0.8.
Proof. unfold temp_risk, max. const_div. split_tests; lra. Qed.

Lemma norm_humidity_unit (h : Q) : 0 <= h <= 100 -> 0 <= norm_humidity h <= 1.
Proof. intro H. unfold norm_humidity. const_div. lra. Qed.

(** In exact arithmetic the base risk of a valid input is at most 0.996.
    The binary64 sum of the code can pass 0.996 by a rounding step, so
    this bound is used below only where there is room to spare. *)
Lemma normalised_on_valid (p : ParameterSet) :
  valid p ->
  (0 <= norm_precipitation (precipitation p) <= 1 /\
   0 <= norm_humidity (humidity p) <= 1 /\
   0 <= norm_flow_volume (flow_volume p) <= 1 /\
   0 <= norm_flow_velocity (flow_velocity p) <= 1 /\
   0 <= norm_sediments (sediments p) <= 1 /\
   0 <= norm_pressure (pressure p) <= 1 /\
   0 <= norm_wind_speed (wind_speed p) <= 1 /\
   0 <= temp_risk (temperature p) <= 0.8) /\
  0 <= base_risk p <= 0.996.
Proof.
  intros (Hh & Hp & Hv & Hw & Hs & Hf).
  pose proof (capped_unit (precipitation p) 200 eq_refl Hp) as B1.
  pose proof (norm_humidity_unit (humidity p) Hh) as B2.
  pose proof (capped_unit (flow_volume p) 2000 eq_refl Hf) as B3.
  pose proof (capped_unit (flow_velocity p) 10 eq_refl Hv) as B4.
  pose proof (capped_unit (sediments p) 500 eq_refl Hs) as B5.
  pose proof (norm_pressure_unit (pressure p)) as B6.
  pose proof (capped_unit (wind_speed p) 80 eq_refl Hw) as B7.
  pose proof (temp_risk_range (temperature p)) as B8.
  fold (norm_precipitation (precipitation p)) in B1.
  fold (norm_flow_volume (flow_volume p)) in B3.
  fold (norm_flow_velocity (flow_velocity p)) in B4.
  fold (norm_sediments (sediments p)) in B5.
  fold (norm_wind_speed (wind_speed p)) in B7.
  split; [repeat split; tauto|].
  unfold base_risk, weights.precipitation, weights.flow_volume,
    weights.humidity, weights.flow_velocity, weights.sediments,
    weights.pressure, weights.wind_speed, weights.temperature.
  set (a1 := norm_precipitation _) in *. set (a2 := norm_humidity _) in *.
  set (a3 := norm_flow_volume _) in *. set (a4 := norm_flow_velocity _) in *.
  set (a5 := norm_sediments _) in *. set (a6 := norm_pressure _) in *.
  set (a7 := norm_wind_speed _) in *. set (a8 := temp_risk _) in *.
  clearbody a1 a2 a3 a4 a5 a6 a7 a8.
  lra.
Qed.

Lemma synergy_nonneg (p : ParameterSet) (risk : Q) :
  0 <= risk -> 0 <= synergy p risk.
Proof.
  intro H. rewrite synergy_multiplier.
  apply Qmult_le_0_compat; [exact H|].
  pose proof (multiplier_ge_1 p). lra.
Qed.

(** X9. On inputs with humidity within [0, 100] and the five physical
    quantities non-negative, every normalised variable is on the scale
    0-1, the temperature contribution is at most 0.8, the base risk is
    between 0 and 1, and the [max(..., 0)] of the last line never acts:
    the score is the risk times 100, cut at 100. *)
Theorem base_risk_on_valid (p : ParameterSet) :
  valid p ->
  (0 <= norm_precipitation (precipitation p) <= 1 /\
   0 <= norm_humidity (humidity p) <= 1 /\
   0 <= norm_flow_volume (flow_volume p) <= 1 /\
   0 <= norm_flow_velocity (flow_velocity p) <= 1 /\
   0 <= norm_sediments (sediments p) <= 1 /\
   0 <= norm_pressure (pressure p) <= 1 /\
   0 <= norm_wind_speed (wind_speed p) <= 1 /\
   0 <= temp_risk (temperature p) <= 0.8) /\
  0 <= base_risk p <= 1 /\
  score p == min (synergy p (base_risk p) * 100) 100.
Proof.
  intro Hv. destruct (normalised_on_valid p Hv) as [Hn Hb].
  split; [exact Hn|]. split; [lra|].
  rewrite calculate_flood_risk_stages.
  assert (H0 : 0 <= synergy p (base_risk p))
    by (apply synergy_nonneg; lra).
  set (r := synergy p (base_risk p)) in *. clearbody r.
  unfold min, max. split_tests; lra.
Qed.

Lemma base_risk_on_valid_witness :
  valid slider_defaults /\ 0 <= base_risk slider_defaults <= 1 /\
  score slider_defaults
  == min (synergy slider_defaults (base_risk slider_defaults) * 100) 100.
Proof.
  assert (Hv : valid slider_defaults).
  { unfold valid; cbn; repeat split; discriminate. }
  split; [exact Hv | exact (proj2 (base_risk_on_valid slider_defaults Hv))].
Defined.

(** X10. On such inputs a score above 99.6 needs a synergy factor: when
    none of the four guards holds the score is the base risk times 100,
    which stays at or below 99.6. *)
Theorem score_above_996_needs_synergy (p : ParameterSet) :
  valid p -> 99.6 < score p ->
  rain_humidity p || volume_velocity p || sediments_volume p
    || pressure_rain p = true.
Proof.
  intros Hv Hs.
  destruct (normalised_on_valid p Hv) as [_ Hb].
  rewrite score_multiplier in Hs. unfold multiplier, factor in Hs.
  destruct (rain_humidity p); [reflexivity|].
  destruct (volume_velocity p); [reflexivity|].
  destruct (sediments_volume p); [reflexivity|].
  destruct (pressure_rain p); [reflexivity|].
  exfalso. revert Hs. set (b := base_risk p) in *. clearbody b.
  unfold min, max. split_tests; intro Hs; lra.
Qed.

Lemma score_above_996_needs_synergy_witness :
  valid preset_critico /\ 99.6 < score preset_critico /\
  rain_humidity preset_critico || volume_velocity preset_critico
    || sediments_volume preset_critico || pressure_rain preset_critico = true.
Proof.
  assert (Hv : valid preset_critico).
  { unfold valid; cbn; repeat split; discriminate. }
  assert (Hs : 99.6 < score preset_critico) by reflexivity.
  split; [exact Hv|]. split; [exact Hs|].
  exact (score_above_996_needs_synergy preset_critico Hv Hs).
Defined.

(** X11. Without a synergy guard, on such inputs, neither end of the final
    clamp acts: the score is exactly the base risk times 100. *)
Theorem score_without_synergy (p : ParameterSet) :
  valid p ->
  rain_humidity p || volume_velocity p || sediments_volume p
    || pressure_rain p = false ->
  score p == base_risk p * 100.
Proof.
  intros Hv Hg.
  destruct (normalised_on_valid p Hv) as [_ Hb].
  rewrite score_multiplier. unfold multiplier, factor.
  destruct (rain_humidity p); [discriminate Hg|].
  destruct (volume_velocity p); [discriminate Hg|].
  destruct (sediments_volume p); [discriminate Hg|].
  destruct (pressure_rain p); [discriminate Hg|].
  set (b := base_risk p) in *. clearbody b.
  unfold min, max. split_tests; lra.
Qed.

Lemma score_without_synergy_witness :
  valid slider_defaults /\
  rain_humidity slider_defaults || volume_velocity slider_defaults
    || sediments_volume slider_defaults || pressure_rain slider_defaults
    = false /\
  score slider_defaults == base_risk slider_defaults * 100.
Proof.
  assert (Hv : valid slider_defaults).
  { unfold valid; cbn; repeat split; discriminate. }
  split; [exact Hv|]. split; [reflexivity|].
  exact (score_without_synergy slider_defaults Hv eq_refl).
Defined.

(** * What the page shows for a score *)

Module DashboardFacts.

Import Dashboard.
Import String.

(** X12. The alert box and the colour follow the category, for every
    score: a success box and green exactly for BAJO, a warning box and
    orange exactly for MODERADO, an error box for ALTO (red) and for
    CRITICO (dark red).  The three ladders of the page never disagree. *)
Theorem alert_and_color_follow_category (s : Q) :
  alert s = match category s with
            | BAJO => success
            | MODERADO => warning
            | ALTO | CRITICO => error
            end /\
  color s = match category s with
            | BAJO => "green"%string
            | MODERADO => "orange"%string
            | ALTO => "red"%string
            | CRITICO => "darkred"%string
            end.
Proof.
  unfold alert, color, category.
  destruct (s <? 30); [split; reflexivity|].
  destruct (s <? 60); [split; reflexivity|].
  destruct (s <? 80); split; reflexivity.
Qed.

(** X13. A score between 0 and 100 lies within the gauge step listed at
    the position of its category, and below the upper end of that step
    unless the category is CRITICO: the band drawn under the needle is the
    one of the category shown. *)
Theorem gauge_step_of_category (s : Q) :
  0 <= s <= 100 ->
  exists lo hi c,
    nth_error gauge_steps (rank (category s)) = Some (lo, hi, c) /\
    lo <= s <= hi /\ (s < hi \/ category s = CRITICO).
Proof.
  intros [H0 H100]. unfold category.
  destruct (s <? 30) eqn:E30; [|destruct (s <? 60) eqn:E60;
    [|destruct (s <? 80) eqn:E80]]; tests_to_props;
    cbn [rank gauge_steps nth_error]; do 3 eexists;
    (split; [reflexivity|]); (split; [lra|]);
    first [left; lra | right; reflexivity].
Qed.

Lemma gauge_step_of_category_witness :
  0 <= score slider_defaults <= 100 /\
  exists lo hi c,
    nth_error gauge_steps (rank (category (score slider_defaults)))
      = Some (lo, hi, c) /\
    lo <= score slider_defaults <= hi /\
    (score slider_defaults < hi \/ category (score slider_defaults) = CRITICO).
Proof.
  assert (H : 0 <= score slider_defaults <= 100)
    by (split; discriminate).
  split; [exact H|].
  exact (gauge_step_of_category (score slider_defaults) H).
Defined.

End DashboardFacts.

(** * C7: failures and caps *)

Module RaisingFacts.

Import Raising.

Lemma overflow_above_range : (2 ^ 1001 < 2 ^ 1024 - 2 ^ 970)%Z.
Proof. reflexivity. Qed.

Lemma truediv_float (q : Q) (d : Z) :
  (1 <= d)%Z -> truediv (PyFloat q) d = Some (q / inject_Z d).
Proof.
  intro Hd. unfold truediv.
  destruct (d =? 0)%Z eqn:E; [lia | reflexivity].
Qed.

(** An [int] of magnitude up to 2^1001 divides by a positive literal
    without overflow. *)
Lemma truediv_int (z d : Z) :
  (Z.abs z <= 2 ^ 1001)%Z -> (1 <= d)%Z ->
  truediv (PyInt z) d = Some (inject_Z z / inject_Z d).
Proof.
  intros Hz Hd. unfold truediv.
  destruct (d =? 0)%Z eqn:E; [lia|]. cbv zeta.
  assert (Hlt : Qabs (inject_Z z / inject_Z d) < float_overflow).
  { assert (Hd0 : 0 < inject_Z d).
    { change 0 with (inject_Z 0). rewrite <- Zlt_Qlt. lia. }
    unfold Qdiv. rewrite Qabs_Qmult, Qabs_Qinv, (Qabs_pos (inject_Z d))
      by (apply Qlt_le_weak, Hd0).
    apply Qlt_shift_div_r; [exact Hd0|].
    change (Qabs (inject_Z z)) with (inject_Z (Z.abs z)).
    unfold float_overflow. rewrite <- inject_Z_mult, <- Zlt_Qlt.
    pose proof overflow_above_range as Ho.
    set (T := (2 ^ 1024 - 2 ^ 970)%Z) in *.
    set (A := (2 ^ 1001)%Z) in *. clearbody T A.
    assert (T * 1 <= T * d)%Z by (apply Z.mul_le_mono_nonneg_l; lia).
    lia. }
  apply Qleb_gt in Hlt. rewrite Hlt. reflexivity.
Qed.

Lemma representable_bound (z : Z) :
  (Z.abs z <= 2 ^ 1000)%Z -> (Z.abs z <= 2 ^ 1001)%Z.
Proof.
  intro H. assert (2 ^ 1000 <= 2 ^ 1001)%Z by (intro E; discriminate E).
  lia.
Qed.

Lemma representable_sub_bound (z c : Z) :
  (Z.abs z <= 2 ^ 1000)%Z -> (0 <= c <= 1000)%Z ->
  (Z.abs (z - c) <= 2 ^ 1001)%Z.
Proof.
  intros H Hc.
  assert (2 ^ 1000 + 1000 <= 2 ^ 1001)%Z by (intro E; discriminate E).
  set (A := (2 ^ 1000)%Z) in *. set (B := (2 ^ 1001)%Z) in *.
  clearbody A B. lia.
Qed.

Lemma truediv_representable (x : Number) (d : Z) :
  representable x -> (1 <= d)%Z ->
  truediv x d = Some (value x / inject_Z d).
Proof.
  intros Hx Hd. destruct x as [z|q]; cbn [value].
  - apply truediv_int; [apply representable_bound, Hx | exact Hd].
  - apply truediv_float, Hd.
Qed.

Lemma truediv_sub_representable (x : Number) (c d : Z) :
  representable x -> (0 <= c <= 1000)%Z -> (1 <= d)%Z ->
  exists q, truediv (sub x c) d = Some q /\
            q == (value x - inject_Z c) / inject_Z d.
Proof.
  intros Hx Hc Hd. destruct x as [z|q]; cbn [value sub].
  - exists (inject_Z (z - c) / inject_Z d). split.
    + apply truediv_int; [apply representable_sub_bound; assumption | exact Hd].
    + unfold Z.sub. rewrite inject_Z_plus, inject_Z_opp. reflexivity.
  - exists ((q - inject_Z c) / inject_Z d). split; [|reflexivity].
    apply truediv_float, Hd.
Qed.

(** On representable arguments no division raises, and the function
    returns what [Scorer.calculate_flood_risk] computes from their
    values. *)
Lemma calculate_flood_risk_returns
    (pressure humidity precipitation flow_velocity
     wind_speed temperature sediments flow_volume : Number) :
  representable pressure -> representable humidity ->
  representable precipitation -> representable flow_velocity ->
  representable wind_speed -> representable temperature ->
  representable sediments -> representable flow_volume ->
  exists r,
    Raising.calculate_flood_risk pressure humidity precipitation
      flow_velocity wind_speed temperature sediments flow_volume = Some r /\
    r == Scorer.calculate_flood_risk (value pressure) (value humidity)
           (value precipitation) (value flow_velocity) (value wind_speed)
           (value temperature) (value sediments) (value flow_volume).
Proof.
  intros Hp Hh Hr Hv Hw Ht Hs Hf.
  unfold Raising.calculate_flood_risk, Scorer.calculate_flood_risk.
  repeat (rewrite truediv_representable by (assumption || lia); cbn [bind]).
  destruct (truediv_sub_representable pressure 980 40 Hp) as (qp & -> & Eqp);
    [lia | lia |].
  cbn [bind].
  repeat (rewrite truediv_representable by (assumption || lia); cbn [bind]).
  cbv zeta.
  change (inject_Z 980) with 980 in Eqp. change (inject_Z 40) with 40 in Eqp.
  change (inject_Z 200) with 200. change (inject_Z 100) with 100.
  change (inject_Z 2000) with 2000. change (inject_Z 10) with 10.
  change (inject_Z 500) with 500. change (inject_Z 80) with 80.
  destruct ((26 <=? value temperature) && (value temperature <=? 32)) eqn:E1;
    [|destruct (32 <? value temperature) eqn:E2].
  1, 2: cbn [bind]; eexists; split; [reflexivity|];
    destruct ((100 <? value precipitation) && (90 <? value humidity));
    destruct ((1200 <? value flow_volume) && (5 <? value flow_velocity));
    destruct ((300 <? value sediments) && (800 <? value flow_volume));
    destruct ((value pressure <? 990) && (80 <? value precipitation));
    rewrite Eqp; reflexivity.
  destruct (truediv_sub_representable temperature 15 15 Ht) as (qt & -> & Eqt);
    [lia | lia |].
  change (inject_Z 15) with 15 in Eqt.
  cbn [bind]; eexists; split; [reflexivity|];
    destruct ((100 <? value precipitation) && (90 <? value humidity));
    destruct ((1200 <? value flow_volume) && (5 <? value flow_velocity));
    destruct ((300 <? value sediments) && (800 <? value flow_volume));
    destruct ((value pressure <? 990) && (80 <? value precipitation));
    rewrite Eqp, Eqt; reflexivity.
Qed.

(** *** An input above its cap scores as the cap *)

Lemma Qltb_at_or_above (c cap x : Q) :
  c < cap -> cap <= x -> (c <? x) = true.
Proof. intros. apply Qltb_lt. lra. Qed.

Lemma norm_pressure_high (x : Q) : 1020 <= x -> norm_pressure x == 0.
Proof.
  intro H. unfold norm_pressure, min, max. const_div. split_tests; lra.
Qed.

Lemma norm_pressure_low (x : Q) : x <= 980 -> norm_pressure x == 1.
Proof.
  intro H. unfold norm_pressure, min, max. const_div. split_tests; lra.
Qed.

(** The score of [q] is the score of [q'] once their base risks and their
    guards agree. *)
Ltac same_score Hbase :=
  rewrite !score_multiplier, Hbase;
  apply min_proper; [|reflexivity]; apply max_proper; [|reflexivity];
  apply Qmult_comp; [|reflexivity]; apply Qmult_comp; [reflexivity|];
  unfold multiplier, rain_humidity, volume_velocity, sediments_volume,
    pressure_rain; project.

Lemma score_precipitation_above_cap (p : ParameterSet) (x : Q) :
  200 <= x ->
  score (with_precipitation p x) == score (with_precipitation p 200).
Proof.
  intro H.
  assert (Hb : base_risk (with_precipitation p x)
               == base_risk (with_precipitation p 200)).
  { unfold base_risk; project. unfold norm_precipitation.
    rewrite (min_div_cap x 200), (min_div_cap 200 200)
      by (reflexivity || assumption || discriminate). reflexivity. }
  same_score Hb.
  rewrite (Qltb_at_or_above 100 200 x), (Qltb_at_or_above 80 200 x)
    by (reflexivity || assumption).
  reflexivity.
Qed.

Lemma score_flow_volume_above_cap (p : ParameterSet) (x : Q) :
  2000 <= x ->
  score (with_flow_volume p x) == score (with_flow_volume p 2000).
Proof.
  intro H.
  assert (Hb : base_risk (with_flow_volume p x)
               == base_risk (with_flow_volume p 2000)).
  { unfold base_risk; project. unfold norm_flow_volume.
    rewrite (min_div_cap x 2000), (min_div_cap 2000 2000)
      by (reflexivity || assumption || discriminate). reflexivity. }
  same_score Hb.
  rewrite (Qltb_at_or_above 1200 2000 x), (Qltb_at_or_above 800 2000 x)
    by (reflexivity || assumption).
  reflexivity.
Qed.

Lemma score_flow_velocity_above_cap (p : ParameterSet) (x : Q) :
  10 <= x ->
  score (with_flow_velocity p x) == score (with_flow_velocity p 10).
Proof.
  intro H.
  assert (Hb : base_risk (with_flow_velocity p x)
               == base_risk (with_flow_velocity p 10)).
  { unfold base_risk; project. unfold norm_flow_velocity.
    rewrite (min_div_cap x 10), (min_div_cap 10 10)
      by (reflexivity || assumption || discriminate). reflexivity. }
  same_score Hb.
  rewrite (Qltb_at_or_above 5 10 x) by (reflexivity || assumption).
  reflexivity.
Qed.

Lemma score_sediments_above_cap (p : ParameterSet) (x : Q) :
  500 <= x ->
  score (with_sediments p x) == score (with_sediments p 500).
Proof.
  intro H.
  assert (Hb : base_risk (with_sediments p x)
               == base_risk (with_sediments p 500)).
  { unfold base_risk; project. unfold norm_sediments.
    rewrite (min_div_cap x 500), (min_div_cap 500 500)
      by (reflexivity || assumption || discriminate). reflexivity. }
  same_score Hb.
  rewrite (Qltb_at_or_above 300 500 x) by (reflexivity || assumption).
  reflexivity.
Qed.

Lemma score_wind_speed_above_cap (p : ParameterSet) (x : Q) :
  80 <= x ->
  score (with_wind_speed p x) == score (with_wind_speed p 80).
Proof.
  intro H.
  assert (Hb : base_risk (with_wind_speed p x)
               == base_risk (with_wind_speed p 80)).
  { unfold base_risk; project. unfold norm_wind_speed.
    rewrite (min_div_cap x 80), (min_div_cap 80 80)
      by (reflexivity || assumption || discriminate). reflexivity. }
  same_score Hb. reflexivity.
Qed.

Lemma score_pressure_above_range (p : ParameterSet) (x : Q) :
  1020 <= x ->
  score (with_pressure p x) == score (with_pressure p 1020).
Proof.
  intro H.
  assert (Hb : base_risk (with_pressure p x)
               == base_risk (with_pressure p 1020)).
  { unfold base_risk; project.
    rewrite (norm_pressure_high x), (norm_pressure_high 1020)
      by (assumption || discriminate). reflexivity. }
  same_score Hb.
  assert (E : (x <? 990) = false) by (apply Qltb_ge; lra).
  rewrite E. reflexivity.
Qed.

Lemma score_pressure_below_range (p : ParameterSet) (x : Q) :
  x <= 980 ->
  score (with_pressure p x) == score (with_pressure p 980).
Proof.
  intro H.
  assert (Hb : base_risk (with_pressure p x)
               == base_risk (with_pressure p 980)).
  { unfold base_risk; project.
    rewrite (norm_pressure_low x), (norm_pressure_low 980)
      by (assumption || discriminate). reflexivity. }
  same_score Hb.
  assert (E : (x <? 990) = true) by (apply Qltb_lt; lra).
  rewrite E. reflexivity.
Qed.

(** *** C7 *)

(** Humidity is the one input whose normalisation has no cap: at humidity
    150 the normalised value is 1.5, and the score differs from the score
    at humidity 100, which a clamped input would reproduce.  And one input
    does make the function raise: with the [int] 10^400 for precipitation
    the first division overflows. *)
Lemma C7_humidity_not_capped_int_overflows :
  (100 < 150 /\
   norm_humidity 150 == 3 # 2 /\
   ~ norm_humidity 150 <= 1 /\
   score (with_humidity slider_defaults 100) == 4381 # 120 /\
   score (with_humidity slider_defaults 150) == 5281 # 120 /\
   ~ score (with_humidity slider_defaults 150)
     == score (with_humidity slider_defaults 100)) /\
  Raising.calculate_flood_risk (PyInt 1000) (PyInt 83) (PyInt (10 ^ 400))
    (PyFloat 2.0) (PyInt 18) (PyInt 25) (PyInt 50) (PyInt 504) = None.
Proof.
  split; [|vm_compute; reflexivity].
  split; [reflexivity|]. split; [reflexivity|].
  split; [intro H; vm_compute in H; apply H; reflexivity|].
  split; [reflexivity|]. split; [reflexivity|].
  intro H. vm_compute in H. discriminate H.
Qed.

(** C7, amended. On finite floats and on [int]s of magnitude up to 2^1000
    the scoring function raises nothing and returns.  An input above its
    normalisation cap is clamped to the cap, not rejected: precipitation
    from 200, flow volume from 2000, flow velocity from 10, sediments from
    500 and wind speed from 80 normalise to exactly 1 and give the score
    of the cap, and pressure from 1020 up (from 980 down) normalises to 0
    (to 1) and gives the score of 1020 (of 980).  Humidity is divided by
    100 with no cap, so humidity above 100 normalises above 1. *)
Theorem C7_inputs_capped_except_humidity
    (pressure humidity precipitation flow_velocity
     wind_speed temperature sediments flow_volume : Number)
    (p : ParameterSet) (x : Q) :
  (representable pressure -> representable humidity ->
   representable precipitation -> representable flow_velocity ->
   representable wind_speed -> representable temperature ->
   representable sediments -> representable flow_volume ->
   exists r,
     Raising.calculate_flood_risk pressure humidity precipitation
       flow_velocity wind_speed temperature sediments flow_volume = Some r /\
     r == Scorer.calculate_flood_risk (value pressure) (value humidity)
            (value precipitation) (value flow_velocity) (value wind_speed)
            (value temperature) (value sediments) (value flow_volume)) /\
  (200 <= x ->
   norm_precipitation x == 1 /\
   score (with_precipitation p x) == score (with_precipitation p 200)) /\
  (2000 <= x ->
   norm_flow_volume x == 1 /\
   score (with_flow_volume p x) == score (with_flow_volume p 2000)) /\
  (10 <= x ->
   norm_flow_velocity x == 1 /\
   score (with_flow_velocity p x) == score (with_flow_velocity p 10)) /\
  (500 <= x ->
   norm_sediments x == 1 /\
   score (with_sediments p x) == score (with_sediments p 500)) /\
  (80 <= x ->
   norm_wind_speed x == 1 /\
   score (with_wind_speed p x) == score (with_wind_speed p 80)) /\
  (1020 <= x ->
   norm_pressure x == 0 /\
   score (with_pressure p x) == score (with_pressure p 1020)) /\
  (x <= 980 ->
   norm_pressure x == 1 /\
   score (with_pressure p x) == score (with_pressure p 980)) /\
  norm_humidity x == x / 100 /\
  (100 < x -> 1 < norm_humidity x).
Proof.
  split; [apply calculate_flood_risk_returns|].
  split; [intro H; split;
          [apply min_div_cap; [reflexivity | exact H]
          | apply score_precipitation_above_cap, H]|].
  split; [intro H; split;
          [apply min_div_cap; [reflexivity | exact H]
          | apply score_flow_volume_above_cap, H]|].
  split; [intro H; split;
          [apply min_div_cap; [reflexivity | exact H]
          | apply score_flow_velocity_above_cap, H]|].
  split; [intro H; split;
          [apply min_div_cap; [reflexivity | exact H]
          | apply score_sediments_above_cap, H]|].
  split; [intro H; split;
          [apply min_div_cap; [reflexivity | exact H]
          | apply score_wind_speed_above_cap, H]|].
  split; [intro H; split;
          [apply norm_pressure_high, H
          | apply score_pressure_above_range, H]|].
  split; [intro H; split;
          [apply norm_pressure_low, H
          | apply score_pressure_below_range, H]|].
  split; [reflexivity|].
  intro H. unfold norm_humidity. const_div. lra.
Qed.

Lemma C7_inputs_capped_except_humidity_witness :
  (exists r,
     Raising.calculate_flood_risk (PyInt 1000) (PyInt 150) (PyInt 500)
       (PyFloat 2.0) (PyInt 18) (PyInt 25) (PyInt 50) (PyInt 504) = Some r /\
     r == Scorer.calculate_flood_risk 1000 150 500 2.0 18 25 50 504) /\
  (200 <= 500 /\
   norm_precipitation 500 == 1 /\
   score (with_precipitation slider_defaults 500)
   == score (with_precipitation slider_defaults 200)) /\
  (100 < 500 /\ 1 < norm_humidity 500).
Proof.
  pose proof (C7_inputs_capped_except_humidity
                (PyInt 1000) (PyInt 150) (PyInt 500) (PyFloat 2.0)
                (PyInt 18) (PyInt 25) (PyInt 50) (PyInt 504)
                slider_defaults 500) as H.
  assert (R : forall z : Z, (Z.abs z <=? 2 ^ 1000)%Z = true ->
                            representable (PyInt z))
    by (intros z E; apply Z.leb_le, E).
  assert (Hc : 200 <= 500) by discriminate.
  assert (Hh : 100 < 500) by reflexivity.
  split.
  { apply (proj1 H); try exact I; apply R; vm_compute; reflexivity. }
  split.
  { split; [exact Hc | exact (proj1 (proj2 H) Hc)]. }
  split; [exact Hh|].
  exact (proj2 (proj2 (proj2 (proj2 (proj2 (proj2 (proj2 (proj2 (proj2 H))))))))
           Hh).
Defined.

End RaisingFacts.
